(** * The agent tool-use loop and the multi-agent orchestrator

    A shallow embedding of [src/agent.ts] (class [OpenRouterAgent]) and of
    the orchestrator module (class [TaskOrchestrator]), with the
    properties of the specification stated over it; then of the file
    reading tool ([src/tools/read-file-tool.ts]) and of the command line
    of the orchestrator ([src/make-it-heavy.ts]), with further
    properties of the code.

    Conventions of the embedding.
    - A JavaScript string is a [string] (its UTF-8 bytes).
    - An [async] function is modelled by the way its promise settles: a
      [Completion], either [Normal v] (fulfilled) or [Throw e] (rejected).
      A synchronous function that may throw has the same type.
    - The language model and the tools are outside the program.  They are
      oracles: functions of the conversation as it stands when they are
      called.  A call of the model is rejected, or it is fulfilled with
      a response that has a first message or has none.  A conversation only grows during a run, so no two calls of
      one run see the same conversation, and any sequence of answers
      (scripted, random, time dependent) is some oracle.
    - The counts of the configuration (iterations, agents) are natural
      numbers.
    - [console.log] output is display only and is left out, but in the
      command line ([CLI]).

    Contents: the built-ins of JavaScript that are called ([JS]) and a
    reader of JSON texts ([JSONText]); the two classes ([Agent],
    [Orchestrator]); the vocabulary of the properties ([Trace],
    [Outcome]) and concrete agents and worlds ([Scenario]); the shape of
    a conversation ([Shape]) and the two maps of the orchestrator
    ([Ledger]); the file reading tool ([ReadFileTool]) and the command
    line ([CLI]); then the proofs. *)

From Stdlib Require Import String Ascii List ZArith QArith Lia DecimalString.
From Stdlib Require Import Sorted.
From stdpp Require Import base option list gmap strings.

Set Warnings "-register-all".

Local Open Scope string_scope.
Local Open Scope list_scope.

(** ** Completions: normal return or a thrown value *)

(** A thrown [Error] object, by the two fields [Error.prototype.toString]
    reads. *)
Record JSError := mkError { err_name : string; err_message : string }.

Inductive Completion (A : Type) : Type :=
| Normal (v : A)
| Throw (e : JSError).
Arguments Normal {A} v.
Arguments Throw {A} e.

Definition bind {A B : Type} (c : Completion A) (k : A -> Completion B)
  : Completion B :=
  match c with
  | Normal v => k v
  | Throw e => Throw e
  end.

(** [try { body } catch (error) { handler }] *)
Definition try_catch {A : Type} (body : Completion A)
    (handler : JSError -> Completion A) : Completion A :=
  match body with
  | Normal v => Normal v
  | Throw e => handler e
  end.

Notation "'let!' x ':=' c 'in' k" := (bind c (fun x => k))
  (at level 10, x name, c at level 100, k at level 200).

Definition is_throw {A : Type} (c : Completion A) : bool :=
  match c with Normal _ => false | Throw _ => true end.

(** ** The JavaScript built-ins the two classes call *)

Module JS.

(** The line feed, written [\n] in the source. *)
Definition nl : string := String "010"%char EmptyString.

(** [new Error(message)] *)
Definition Error (message : string) : JSError := mkError "Error" message.

(** [`${error}`] for an error object: [Error.prototype.toString]. *)
Definition toString (e : JSError) : string :=
  if String.eqb (err_name e) "" then err_message e
  else if String.eqb (err_message e) "" then err_name e
  else err_name e +:+ ": " +:+ err_message e.

(** [n.toString()] and [`${n}`] for a natural number. *)
Definition Number_toString (n : nat) : string :=
  NilEmpty.string_of_uint (Nat.to_uint n).

(** [xs.join(sep)] *)
Fixpoint join (sep : string) (xs : list string) : string :=
  match xs with
  | [] => ""
  | [x] => x
  | x :: rest => x +:+ sep +:+ join sep rest
  end.

(** [s] without the prefix [p], when it starts with [p]. *)
Fixpoint strip_prefix (p s : string) : option string :=
  match p, s with
  | EmptyString, _ => Some s
  | String a p', String b s' =>
      if Ascii.eqb a b then strip_prefix p' s' else None
  | String _ _, EmptyString => None
  end.

(** The text before and the text after the first occurrence of [pat]. *)
Fixpoint find_first (pat s : string) : option (string * string) :=
  match strip_prefix pat s with
  | Some after => Some ("", after)
  | None =>
      match s with
      | EmptyString => None
      | String c s' =>
          match find_first pat s' with
          | Some (before, after) => Some (String c before, after)
          | None => None
          end
      end
  end.

(** [GetSubstitution] of ECMA-262 for a string pattern (no captures):
    in the replacement text [$$] stands for a dollar sign, [$&] for the
    matched text, [$`] for the text before the match and [$'] for the
    text after it; any other dollar sign is kept. *)
Fixpoint GetSubstitution (matched before after replacement : string)
  : string :=
  match replacement with
  | EmptyString => ""
  | String c tl =>
      if Ascii.eqb c "$" then
        match tl with
        | String d rest =>
            if Ascii.eqb d "$" then
              "$" +:+ GetSubstitution matched before after rest
            else if Ascii.eqb d "&" then
              matched +:+ GetSubstitution matched before after rest
            else if Ascii.eqb d "`" then
              before +:+ GetSubstitution matched before after rest
            else if Ascii.eqb d "'" then
              after +:+ GetSubstitution matched before after rest
            else String c (GetSubstitution matched before after tl)
        | EmptyString => String c ""
        end
      else String c (GetSubstitution matched before after tl)
  end.

(** [s.replace(pat, replacement)] with a string pattern: the first
    occurrence only, and the replacement text goes through
    [GetSubstitution]. *)
Definition replace (s pat replacement : string) : string :=
  match find_first pat s with
  | Some (before, after) =>
      before +:+ GetSubstitution pat before after replacement +:+ after
  | None => s
  end.

(** [xs.slice(0, n)] for [n >= 0] *)
Definition slice0 {A : Type} (xs : list A) (n : nat) : list A := firstn n xs.

(** *** [String.prototype.trim] *)

Definition bytes (codes : list nat) : string :=
  string_of_list_ascii (List.map ascii_of_nat codes).

(** WhiteSpace and LineTerminator of ECMA-262, in UTF-8. *)
Definition white_space : list string :=
  List.map bytes
    [ [9]; [10]; [11]; [12]; [13]; [32]; [194; 160]; [225; 154; 128];
      [226; 128; 128]; [226; 128; 129]; [226; 128; 130]; [226; 128; 131];
      [226; 128; 132]; [226; 128; 133]; [226; 128; 134]; [226; 128; 135];
      [226; 128; 136]; [226; 128; 137]; [226; 128; 138]; [226; 128; 168];
      [226; 128; 169]; [226; 128; 175]; [226; 129; 159]; [227; 128; 128];
      [239; 187; 191] ].

Fixpoint strip_any (pats : list string) (s : string) : option string :=
  match pats with
  | [] => None
  | p :: pats' =>
      match strip_prefix p s with
      | Some r => Some r
      | None => strip_any pats' s
      end
  end.

Fixpoint drop_leading (pats : list string) (fuel : nat) (s : string)
  : string :=
  match fuel with
  | 0 => s
  | S k =>
      match strip_any pats s with
      | Some r => drop_leading pats k r
      | None => s
      end
  end.

Definition string_rev (s : string) : string :=
  string_of_list_ascii (List.rev (list_ascii_of_string s)).

Definition trimStart (s : string) : string :=
  drop_leading white_space (String.length s) s.

Definition trimEnd (s : string) : string :=
  string_rev
    (drop_leading (List.map string_rev white_space) (String.length s)
       (string_rev s)).

Definition trim (s : string) : string := trimEnd (trimStart s).

(** *** JSON *)

(** A parsed JSON text.  A number carries its numeric value. *)
Inductive json : Type :=
| JNull
| JBool (b : bool)
| JNum (q : Q)
| JStr (s : string)
| JArr (xs : list json)
| JObj (members : list (string * json)).

(** The double quote character. *)
Definition dquote : string := String (ascii_of_nat 34) EmptyString.

Definition hex_digit (n : nat) : ascii :=
  match List.nth_error (list_ascii_of_string "0123456789abcdef") n with
  | Some c => c
  | None => "0"%char
  end.

(** [QuoteJSONString] of ECMA-262: how [JSON.stringify] writes a string. *)
Fixpoint quote_chars (s : string) : string :=
  match s with
  | EmptyString => ""
  | String c r =>
      let n := nat_of_ascii c in
      (if Nat.eqb n 34 then "\" +:+ dquote
       else if Nat.eqb n 92 then "\\"
       else if Nat.eqb n 8 then "\b"
       else if Nat.eqb n 12 then "\f"
       else if Nat.eqb n 10 then "\n"
       else if Nat.eqb n 13 then "\r"
       else if Nat.eqb n 9 then "\t"
       else if Nat.ltb n 32 then
         "\u00" +:+ String (hex_digit (n / 16))
                       (String (hex_digit (n mod 16)) EmptyString)
       else String c "") +:+ quote_chars r
  end.

Definition QuoteJSONString (s : string) : string :=
  dquote +:+ quote_chars s +:+ dquote.

(** [JSON.stringify({ error: message })] *)
Definition stringify_error (message : string) : string :=
  "{" +:+ QuoteJSONString "error" +:+ ":" +:+ QuoteJSONString message +:+ "}".

(** The member [key] of an object: of two members with one key the
    later one is kept by [JSON.parse]. *)
Fixpoint get_member (key : string) (members : list (string * json))
  : option json :=
  match members with
  | [] => None
  | (k, v) :: rest =>
      match get_member key rest with
      | Some later => Some later
      | None => if String.eqb k key then Some v else None
      end
  end.

(** The number of UTF-16 code units of a string given by its UTF-8
    bytes: one for each character, two for a character outside the
    basic plane (a four-byte sequence). *)
Fixpoint utf16_length (s : string) : nat :=
  match s with
  | EmptyString => 0
  | String c r =>
      let n := nat_of_ascii c in
      (if Nat.ltb n 128 then 1
       else if Nat.ltb n 192 then 0
       else if Nat.ltb n 240 then 1
       else 2) + utf16_length r
  end.

(** What the runtime provides and the text of the program does not
    define: [JSON.parse].  It throws a [SyntaxError] on a text that is
    not JSON. *)
Class Runtime := { JSON_parse : string -> Completion json }.

End JS.

(** ** A JSON reader

    One [Runtime]: a reader of JSON texts after the grammar of ECMA-404,
    used to run the program on concrete inputs.  The properties below
    are proved for every [Runtime].  This reader is not [JSON.parse] in
    three respects, none of which the concrete runs below meet: a number
    is read to the exact value of its decimal text and not rounded to a
    double; each escape [\uXXXX] is written in UTF-8 by itself, so the
    two escapes of a surrogate pair give two sequences of three bytes
    and not one of four; and the message of the [SyntaxError] is one of
    two fixed texts. *)

Module JSONText.
Import JS.

Fixpoint skip_ws (s : string) : string :=
  match s with
  | String c r =>
      let n := nat_of_ascii c in
      if Nat.eqb n 32 || Nat.eqb n 9 || Nat.eqb n 10 || Nat.eqb n 13
      then skip_ws r else s
  | EmptyString => s
  end.

Definition digit_value (c : ascii) : option nat :=
  let n := nat_of_ascii c in
  if Nat.leb 48 n && Nat.leb n 57 then Some (n - 48) else None.

Definition hex_value (c : ascii) : option nat :=
  let n := nat_of_ascii c in
  if Nat.leb 48 n && Nat.leb n 57 then Some (n - 48)
  else if Nat.leb 97 n && Nat.leb n 102 then Some (n - 87)
  else if Nat.leb 65 n && Nat.leb n 70 then Some (n - 55)
  else None.

(** The longest run of decimal digits at the head of [s]: how many, their
    value, and the rest of [s]. *)
Fixpoint digits (count : nat) (value : Z) (s : string) : nat * Z * string :=
  match s with
  | String c r =>
      match digit_value c with
      | Some d => digits (S count) (10 * value + Z.of_nat d) r
      | None => (count, value, s)
      end
  | EmptyString => (count, value, s)
  end.

Definition utf8 (n : nat) : string :=
  if Nat.ltb n 128 then bytes [n]
  else if Nat.ltb n 2048 then bytes [192 + n / 64; 128 + n mod 64]
  else bytes [224 + n / 4096; 128 + (n / 64) mod 64; 128 + n mod 64].

(** The characters of a string literal after its opening quote. *)
Fixpoint string_body (s : string) : option (string * string) :=
  match s with
  | EmptyString => None
  | String c r =>
      let n := nat_of_ascii c in
      let cons (x : string) (rest : string) :=
        match string_body rest with
        | Some (body, after) => Some (x +:+ body, after)
        | None => None
        end in
      if Nat.eqb n 34 then Some (EmptyString, r)
      else if Nat.ltb n 32 then None
      else if Nat.eqb n 92 then
        match r with
        | String e r' =>
            let m := nat_of_ascii e in
            if Nat.eqb m 34 || Nat.eqb m 92 || Nat.eqb m 47
            then cons (String e EmptyString) r'
            else if Nat.eqb m 98 then cons (bytes [8]) r'
            else if Nat.eqb m 102 then cons (bytes [12]) r'
            else if Nat.eqb m 110 then cons (bytes [10]) r'
            else if Nat.eqb m 114 then cons (bytes [13]) r'
            else if Nat.eqb m 116 then cons (bytes [9]) r'
            else if Nat.eqb m 117 then
              match r' with
              | String h1 (String h2 (String h3 (String h4 r''))) =>
                  match hex_value h1, hex_value h2,
                        hex_value h3, hex_value h4 with
                  | Some a, Some b, Some c', Some d =>
                      cons (utf8 (((a * 16 + b) * 16 + c') * 16 + d)) r''
                  | _, _, _, _ => None
                  end
              | _ => None
              end
            else None
        | EmptyString => None
        end
      else cons (String c EmptyString) r
  end.

(** A number: [-? int frac? exp?]. *)
Definition number (s : string) : option (json * string) :=
  let '(negative, s1) :=
    match s with
    | String "-" r => (true, r)
    | _ => (false, s)
    end in
  let '(ni, vi, s2) := digits 0 0 s1 in
  let leading_zero :=
    match s1 with String "0" _ => Nat.ltb 1 ni | _ => false end in
  if Nat.eqb ni 0 || leading_zero then None
  else
    let frac :=
      match s2 with
      | String "." r =>
          let '(nf, vf, s3) := digits 0 vi r in
          if Nat.eqb nf 0 then None else Some (nf, vf, s3)
      | _ => Some (0, vi, s2)
      end in
    match frac with
    | None => None
    | Some (nf, mantissa, s3) =>
        let expo :=
          match s3 with
          | String e r =>
              if Ascii.eqb e "e" || Ascii.eqb e "E" then
                let '(minus, r1) :=
                  match r with
                  | String "-" r' => (true, r')
                  | String "+" r' => (false, r')
                  | _ => (false, r)
                  end in
                let '(ne, ve, s4) := digits 0 0 r1 in
                if Nat.eqb ne 0 then None
                else Some ((if minus then - ve else ve)%Z, s4)
              else Some (0%Z, s3)
          | EmptyString => Some (0%Z, s3)
          end in
        match expo with
        | None => None
        | Some (e, s4) =>
            let m := (if negative then - mantissa else mantissa)%Z in
            Some (JNum (Qred (inject_Z m * Qpower (10 # 1) (e - Z.of_nat nf))),
                  s4)
        end
    end.

Definition literal (word : string) (v : json) (s : string)
  : option (json * string) :=
  match strip_prefix word s with
  | Some r => Some (v, r)
  | None => None
  end.

Fixpoint value (fuel : nat) (s : string) : option (json * string) :=
  match fuel with
  | 0 => None
  | S k =>
      match skip_ws s with
      | EmptyString => None
      | String c r as s0 =>
          let n := nat_of_ascii c in
          if Nat.eqb n 34 then
            match string_body r with
            | Some (body, after) => Some (JStr body, after)
            | None => None
            end
          else if Ascii.eqb c "[" then
            match skip_ws r with
            | String "]" after => Some (JArr [], after)
            | _ =>
                match elements k r with
                | Some (xs, after) => Some (JArr xs, after)
                | None => None
                end
            end
          else if Ascii.eqb c "{" then
            match skip_ws r with
            | String "}" after => Some (JObj [], after)
            | _ =>
                match members k r with
                | Some (kvs, after) => Some (JObj kvs, after)
                | None => None
                end
            end
          else if Ascii.eqb c "t" then literal "true" (JBool true) s0
          else if Ascii.eqb c "f" then literal "false" (JBool false) s0
          else if Ascii.eqb c "n" then literal "null" JNull s0
          else number s0
      end
  end
with elements (fuel : nat) (s : string) : option (list json * string) :=
  match fuel with
  | 0 => None
  | S k =>
      match value k s with
      | None => None
      | Some (v, r) =>
          match skip_ws r with
          | String "," r' =>
              match elements k r' with
              | Some (vs, after) => Some (v :: vs, after)
              | None => None
              end
          | String "]" after => Some ([v], after)
          | _ => None
          end
      end
  end
with members (fuel : nat) (s : string)
  : option (list (string * json) * string) :=
  match fuel with
  | 0 => None
  | S k =>
      match skip_ws s with
      | String q r =>
          if Nat.eqb (nat_of_ascii q) 34 then
            match string_body r with
            | None => None
            | Some (key, r1) =>
                match skip_ws r1 with
                | String ":" r2 =>
                    match value k r2 with
                    | None => None
                    | Some (v, r3) =>
                        match skip_ws r3 with
                        | String "," r4 =>
                            match members k r4 with
                            | Some (kvs, after) => Some ((key, v) :: kvs, after)
                            | None => None
                            end
                        | String "}" after => Some ([(key, v)], after)
                        | _ => None
                        end
                    end
                | _ => None
                end
            end
          else None
      | EmptyString => None
      end
  end.

Definition SyntaxError (message : string) : JSError :=
  mkError "SyntaxError" message.

Definition parse (text : string) : Completion json :=
  match skip_ws text with
  | EmptyString => Throw (SyntaxError "Unexpected end of JSON input")
  | _ =>
      match value (2 * String.length text + 2) text with
      | Some (v, rest) =>
          match skip_ws rest with
          | EmptyString => Normal v
          | _ => Throw (SyntaxError "Unexpected token in JSON")
          end
      | None => Throw (SyntaxError "Unexpected token in JSON")
      end
  end.

Definition runtime : Runtime := {| JSON_parse := parse |}.

End JSONText.

(** ** Configuration ([interface Config]) *)

Record Config := {
  openrouter_model : string;
  system_prompt : string;
  agent_max_iterations : nat;
  parallel_agents : nat;
  task_timeout : Z;
  aggregation_strategy : string;
  question_generation_prompt : string;
  synthesis_prompt : string
}.

(** ** The agent: [class OpenRouterAgent] *)

Module Agent.
Import JS.

(** A tool call of an assistant message: [id], [function.name] and
    [function.arguments]. *)
Record ToolCall := {
  id : string;
  function_name : string;
  function_arguments : string
}.

Inductive Message : Type :=
| SystemMessage (content : string)
| UserMessage (content : json)
| AssistantMessage (content : option string)
    (tool_calls : option (list ToolCall))
| ToolMessage (tool_call_id name content : string).

(** [response.choices[0].message], the one part of a response that is
    read: [content] is a string or [null], [tool_calls] a list or
    absent. *)
Record AssistantReply := {
  content : option string;
  tool_calls : option (list ToolCall)
}.

(** A tool, as [handleToolCall] sees it: called with the parsed
    arguments while the conversation is [history], it throws or returns
    a value, given by its [JSON.stringify] text (a value that cannot be
    written as JSON makes [JSON.stringify] throw).  The value is not
    awaited: an [async] tool returns a promise, whose text is [{}]. *)
Abbreviation ToolFn := (list Message -> json -> Completion string).

Record ToolSchema := {
  schema_name : string;
  schema_description : string;
  schema_parameters : json
}.

Record BaseTool := {
  name : string;
  description : string;
  parameters : json;
  execute : ToolFn
}.

Definition toOpenRouterSchema (t : BaseTool) : ToolSchema :=
  {| schema_name := name t;
     schema_description := description t;
     schema_parameters := parameters t |}.

(** The request of [client.chat.completions.create]. *)
Record Request := {
  request_model : string;
  request_messages : list Message;
  request_tools : list ToolSchema
}.

(** A fulfilled response of [client.chat.completions.create], by what
    is read of it.  The response is not typed ([any]):
    [response.choices[0].message], with its [content] and its
    [tool_calls], is read outside any [try].  A response that has no
    such message (no [choices], an empty list, a choice without
    message) makes that read throw a TypeError, which the second
    constructor carries. *)
Inductive Response : Type :=
| WithMessage (message : AssistantReply)
| WithoutMessage (error : JSError).

(** [response.choices[0].message] *)
Definition first_message (response : Response) : Completion AssistantReply :=
  match response with
  | WithMessage message => Normal message
  | WithoutMessage error => Throw error
  end.

Definition Client : Type := Request -> Completion Response.

(** What the constructor takes from outside the class: the client made
    by [new OpenAI(...)], and the tools [discoverTools] returns, in the
    order of the map. *)
Record Environment := {
  openai : Client;
  discoverTools : list BaseTool
}.

Record OpenRouterAgent := {
  config : Config;
  silent : bool;
  client : Client;
  tools : list ToolSchema;
  toolMapping : gmap string ToolFn
}.

Definition new (env : Environment) (config : Config) (silent : bool)
  : OpenRouterAgent :=
  {| config := config;
     silent := silent;
     client := openai env;
     tools := List.map toOpenRouterSchema (discoverTools env);
     toolMapping :=
       List.fold_left (fun m t => <[name t := execute t]> m)
         (discoverTools env) ∅ |}.

Definition set_tools (a : OpenRouterAgent) (ts : list ToolSchema)
  : OpenRouterAgent :=
  {| config := config a; silent := silent a; client := client a;
     tools := ts; toolMapping := toolMapping a |}.

Definition set_toolMapping (a : OpenRouterAgent) (m : gmap string ToolFn)
  : OpenRouterAgent :=
  {| config := config a; silent := silent a; client := client a;
     tools := tools a; toolMapping := m |}.

Definition callLLM (a : OpenRouterAgent) (messages : list Message)
  : Completion Response :=
  try_catch
    (client a {| request_model := openrouter_model (config a);
                 request_messages := messages;
                 request_tools := tools a |})
    (fun error => Throw (Error ("LLM call failed: " +:+ toString error))).

(** [if (assistantMessage.content)]: neither [null] nor empty. *)
Definition truthy (content : option string) : bool :=
  match content with
  | Some s => negb (String.eqb s EmptyString)
  | None => false
  end.

(** [fullResponseContent] after the reply [content] is looked at. *)
Definition capture (fullResponseContent : list string)
    (content : option string) : list string :=
  match content with
  | Some s =>
      if truthy content then fullResponseContent ++ [s]
      else fullResponseContent
  | None => fullResponseContent
  end.

(** What a call of [run] leaves behind: how its promise settles, the
    conversation at that time, and the conversations [callLLM] was
    called with, in the order of the calls. *)
Record Run := {
  settled : Completion string;
  conversation : list Message;
  requests : list (list Message)
}.

Definition llm_calls (r : Run) : nat := length (requests r).

Definition exhausted_message : string :=
  "Maximum iterations reached. The agent may be stuck in a loop.".

Definition completion_tool : string := "mark_task_complete".

(** [fullResponseContent.join('\n\n')] *)
Definition full_content (fullResponseContent : list string) : string :=
  join (nl +:+ nl) fullResponseContent.

Section WithRuntime.
Context `{Runtime}.

(** [history] is the conversation at the time of the call; the source
    does not pass it, the tool oracle reads it.  The arguments are
    parsed before the name is looked up, all inside one [try]. *)
Definition handleToolCall (a : OpenRouterAgent) (history : list Message)
    (toolCall : ToolCall) : Message :=
  let attempt : Completion Message :=
    let toolName := function_name toolCall in
    let! toolArgs := JSON_parse (function_arguments toolCall) in
    match toolMapping a !! toolName with
    | Some tool =>
        let! toolResult := tool history toolArgs in
        Normal (ToolMessage (id toolCall) toolName toolResult)
    | None =>
        Normal (ToolMessage (id toolCall) toolName
                  (stringify_error ("Unknown tool: " +:+ toolName)))
    end in
  match attempt with
  | Normal message => message
  | Throw error =>
      ToolMessage (id toolCall) (function_name toolCall)
        (stringify_error ("Tool execution failed: " +:+ toString error))
  end.

(** The [for ... of] loop over the tool calls of one reply: the
    conversation after it, and whether it left by the [return] in its
    body.  (The test of [taskCompleted] after the loop never succeeds:
    the variable is set only just before that [return].) *)
Fixpoint dispatch (a : OpenRouterAgent) (toolCalls : list ToolCall)
    (messages : list Message) : list Message * bool :=
  match toolCalls with
  | [] => (messages, false)
  | toolCall :: rest =>
      let toolResult := handleToolCall a messages toolCall in
      let messages := messages ++ [toolResult] in
      if String.eqb (function_name toolCall) completion_tool
      then (messages, true)
      else dispatch a rest messages
  end.

(** The [while] loop, by the number of iterations left,
    [maxIterations - iteration].  An iteration can leave [run] in three
    ways: by the error of [callLLM], by the TypeError of reading the
    first message of a response that has none, and by the [return] of
    the completion tool. *)
Fixpoint loop (a : OpenRouterAgent) (remaining : nat)
    (messages : list Message) (fullResponseContent : list string)
    (requests : list (list Message)) : Run :=
  match remaining with
  | 0 =>
      {| settled :=
           Normal (if Nat.ltb 0 (length fullResponseContent)
                   then full_content fullResponseContent
                   else exhausted_message);
         conversation := messages;
         requests := requests |}
  | S remaining' =>
      let requests := requests ++ [messages] in
      match callLLM a messages with
      | Throw error =>
          {| settled := Throw error;
             conversation := messages;
             requests := requests |}
      | Normal response =>
          match first_message response with
          | Throw error =>
              {| settled := Throw error;
                 conversation := messages;
                 requests := requests |}
          | Normal assistantMessage =>
              let messages :=
                messages ++ [AssistantMessage (content assistantMessage)
                               (tool_calls assistantMessage)] in
              let fullResponseContent :=
                capture fullResponseContent (content assistantMessage) in
              match tool_calls assistantMessage with
              | Some toolCalls =>
                  let '(messages, returned) :=
                    dispatch a toolCalls messages in
                  if returned then
                    {| settled := Normal (full_content fullResponseContent);
                       conversation := messages;
                       requests := requests |}
                  else
                    loop a remaining' messages fullResponseContent requests
              | None =>
                  loop a remaining' messages fullResponseContent requests
              end
          end
      end
  end.

(** [userInput] is a string for every caller but [runAgentParallel],
    which passes an item of the array [JSON.parse] gave, whatever it
    is. *)
Definition initial_messages (a : OpenRouterAgent) (userInput : json)
  : list Message :=
  [SystemMessage (system_prompt (config a)); UserMessage userInput].

Definition run (a : OpenRouterAgent) (userInput : json) : Run :=
  loop a (agent_max_iterations (config a)) (initial_messages a userInput)
    [] [].

End WithRuntime.

End Agent.

(** ** The orchestrator: [class TaskOrchestrator] *)

Module Orchestrator.
Import JS.

Record AgentResult := {
  agent_id : nat;
  status : string;
  response : string;
  execution_time : Z
}.

(** The three places where an agent is constructed. *)
Inductive Role : Type :=
| Planner
| Worker (agentId : nat)
| Synthesizer.

(** What is outside an orchestration: for each agent constructed, its
    client and tools; for each worker, the time [Date.now()] measures
    for its run.  The workers run concurrently; each one has its own
    oracles, so every interleaving of their steps is some [World]. *)
Record World := {
  environment : Role -> Agent.Environment;
  elapsed : nat -> Z
}.

Record TaskOrchestrator := {
  config : Config;
  numAgents : nat;
  taskTimeout : Z;
  aggregationStrategy : string;
  silent : bool;
  agentProgress : gmap nat string;
  agentResults : gmap nat string
}.

Definition new (config : Config) (silent : bool) : TaskOrchestrator :=
  {| config := config;
     numAgents := parallel_agents config;
     taskTimeout := task_timeout config;
     aggregationStrategy := aggregation_strategy config;
     silent := silent;
     agentProgress := ∅;
     agentResults := ∅ |}.

Definition with_maps (o : TaskOrchestrator)
    (progress results : gmap nat string) : TaskOrchestrator :=
  {| config := config o; numAgents := numAgents o;
     taskTimeout := taskTimeout o;
     aggregationStrategy := aggregationStrategy o; silent := silent o;
     agentProgress := progress; agentResults := results |}.

Definition updateAgentProgress (o : TaskOrchestrator) (agentId : nat)
    (status : string) (result : option string) : TaskOrchestrator :=
  with_maps o (<[agentId := status]> (agentProgress o))
    (match result with
     | Some r => <[agentId := r]> (agentResults o)
     | None => agentResults o
     end).

Definition getProgressStatus (o : TaskOrchestrator) : gmap nat string :=
  agentProgress o.

Definition TypeError (message : string) : JSError :=
  mkError "TypeError" message.

(** The test [questions.length !== numAgents], negated.  Reading
    [length] of [null] throws; a boolean or a number has none; a string
    has its number of code units; an object has the one it was given as
    a member. *)
Definition length_is (questions : json) (numAgents : nat)
  : Completion bool :=
  match questions with
  | JNull =>
      Throw (TypeError "Cannot read properties of null (reading 'length')")
  | JArr xs => Normal (Nat.eqb (length xs) numAgents)
  | JStr s => Normal (Nat.eqb (utf16_length s) numAgents)
  | JObj members =>
      Normal (match get_member "length" members with
              | Some (JNum q) => Qeq_bool q (inject_Z (Z.of_nat numAgents))
              | _ => false
              end)
  | JBool _ | JNum _ => Normal false
  end.

Definition fallback_questions (userInput : string) : list string :=
  [ "Research comprehensive information about: " +:+ userInput;
    "Analyze and provide insights about: " +:+ userInput;
    "Find alternative perspectives on: " +:+ userInput;
    "Verify and cross-check facts about: " +:+ userInput ].

Definition all_failed_message : string :=
  "All agents failed to provide results. Please try again.".

(** [results.sort((a, b) => a.agent_id - b.agent_id)]: the sort of an
    array is stable. *)
Fixpoint insert_by_id (r : AgentResult) (sorted : list AgentResult)
  : list AgentResult :=
  match sorted with
  | [] => [r]
  | x :: rest =>
      if Nat.leb (agent_id r) (agent_id x) then r :: sorted
      else x :: insert_by_id r rest
  end.

Definition sort_by_id (results : list AgentResult) : list AgentResult :=
  List.fold_right insert_by_id [] results.

(** [xs.map((x, i) => f(i, x))], from index [i]. *)
Fixpoint mapi {A B : Type} (f : nat -> A -> B) (i : nat) (xs : list A)
  : list B :=
  match xs with
  | [] => []
  | x :: rest => f i x :: mapi f (S i) rest
  end.

(** The text of [agentResponsesText] after the loop, from index [i]. *)
Fixpoint agentResponsesText (i : nat) (responses : list string) : string :=
  match responses with
  | [] => EmptyString
  | r :: rest =>
      "=== AGENT " +:+ Number_toString (i + 1) +:+ " RESPONSE ===" +:+ nl
        +:+ r +:+ nl +:+ nl +:+ agentResponsesText (S i) rest
  end.

(** The array [combined] after the loop of the fallback, from index [i]. *)
Fixpoint combined (i : nat) (responses : list string) : list string :=
  match responses with
  | [] => []
  | r :: rest =>
      ("=== Agent " +:+ Number_toString (i + 1) +:+ " Response ===")
        :: r :: EmptyString :: combined (S i) rest
  end.

(** What a call of [orchestrate] leaves behind: how its promise settles;
    the run of the agent of [decomposeTask]; the sub-tasks given to
    [runAgentParallel], when [subtasks.map] was reached and did not
    throw; the sorted array [results]; the run of the synthesis agent,
    when there was one; the orchestrator at the end. *)
Record Orchestration := {
  answer : Completion string;
  planning : Agent.Run;
  dispatched : option (list json);
  results : list AgentResult;
  synthesis : option Agent.Run;
  after : TaskOrchestrator
}.

Section WithWorld.
Context `{Runtime}.
Variable w : World.

(** The agent of [decomposeTask], after the completion tool is taken
    out of its tools and of its mapping. *)
Definition questionAgent (o : TaskOrchestrator) : Agent.OpenRouterAgent :=
  let a := Agent.new (environment w Planner) (config o) true in
  let a :=
    Agent.set_tools a
      (List.filter
         (fun tool =>
            negb (String.eqb (Agent.schema_name tool) "mark_task_complete"))
         (Agent.tools a)) in
  Agent.set_toolMapping a (delete "mark_task_complete" (Agent.toolMapping a)).

Definition generationPrompt (o : TaskOrchestrator) (userInput : string)
    (numAgents : nat) : string :=
  replace
    (replace (question_generation_prompt (config o)) "{user_input}"
       userInput)
    "{num_agents}" (Number_toString numAgents).

(** The value returned is what [JSON.parse] gave when its [length] is
    the number of agents, an array or not; the [catch] clause binds no
    variable, so what the [throw] carries is never read. *)
Definition decomposeTask (o : TaskOrchestrator) (userInput : string)
    (numAgents : nat) : Agent.Run * Completion json :=
  let planning :=
    Agent.run (questionAgent o)
      (JStr (generationPrompt o userInput numAgents)) in
  let attempt : Completion json :=
    let! response := Agent.settled planning in
    let! questions := JSON_parse (trim response) in
    let! right_number := length_is questions numAgents in
    if right_number then Normal questions
    else Throw (Error ("Expected " +:+ Number_toString numAgents
                         +:+ " questions"))
  in
  (planning,
   try_catch attempt
     (fun _ =>
        Normal (JArr (List.map JStr
                        (slice0 (fallback_questions userInput) numAgents))))).

Definition runAgentParallel (o : TaskOrchestrator) (agentId : nat)
    (subtask : json) : Completion AgentResult * TaskOrchestrator :=
  let o := updateAgentProgress o agentId "PROCESSING..." None in
  let agent := Agent.new (environment w (Worker agentId)) (config o) true in
  match Agent.settled (Agent.run agent subtask) with
  | Normal response =>
      let executionTime := elapsed w agentId in
      (Normal {| agent_id := agentId;
                 status := "success";
                 response := response;
                 execution_time := executionTime |},
       updateAgentProgress o agentId "COMPLETED" (Some response))
  | Throw error =>
      (Normal {| agent_id := agentId;
                 status := "error";
                 response := "Error: " +:+ toString error;
                 execution_time := 0 |},
       o)
  end.

Definition synthesisPrompt (o : TaskOrchestrator) (responses : list string)
  : string :=
  replace
    (replace (synthesis_prompt (config o)) "{num_responses}"
       (Number_toString (length responses)))
    "{agent_responses}" (agentResponsesText 0 responses).

Definition synthesisAgent (o : TaskOrchestrator) : Agent.OpenRouterAgent :=
  let a := Agent.new (environment w Synthesizer) (config o) true in
  Agent.set_toolMapping (Agent.set_tools a []) ∅.

(** The answer, and the run of the synthesis agent when there is one. *)
Definition aggregateConsensus (o : TaskOrchestrator)
    (responses : list string) : Completion string * option Agent.Run :=
  match responses with
  | [only] => (Normal only, None)
  | _ =>
      let synthesis :=
        Agent.run (synthesisAgent o) (JStr (synthesisPrompt o responses)) in
      (try_catch (Agent.settled synthesis)
         (fun _ => Normal (join nl (combined 0 responses))),
       Some synthesis)
  end.

Definition aggregateResults (o : TaskOrchestrator)
    (agentResults : list AgentResult)
  : Completion string * option Agent.Run :=
  let successfulResults :=
    List.filter (fun r => String.eqb (status r) "success") agentResults in
  if Nat.eqb (length successfulResults) 0 then
    (Normal all_failed_message, None)
  else
    let responses := List.map response successfulResults in
    if String.eqb (aggregationStrategy o) "consensus"
    then aggregateConsensus o responses
    else aggregateConsensus o responses.

(** The calls [runAgentParallel(i, subtask)] of [subtasks.map], from
    index [i]: how each promise settles, and the orchestrator once all
    have settled.  Each call writes the two maps at its own key only, so
    the maps at the end do not depend on how the runs interleave. *)
Fixpoint run_agents (o : TaskOrchestrator) (i : nat) (subtasks : list json)
  : list (Completion AgentResult) * TaskOrchestrator :=
  match subtasks with
  | [] => ([], o)
  | subtask :: rest =>
      let '(settlement, o) := runAgentParallel o i subtask in
      let '(settlements, o) := run_agents o (S i) rest in
      (settlement :: settlements, o)
  end.

(** The callback of [agentResults.map] in [orchestrate]. *)
Definition settled_result (o : TaskOrchestrator) (i : nat)
    (result : Completion AgentResult) : AgentResult :=
  match result with
  | Normal value => value
  | Throw reason =>
      {| agent_id := i;
         status := "timeout";
         response := "Agent " +:+ Number_toString (i + 1)
                       +:+ " timed out or failed: " +:+ toString reason;
         execution_time := taskTimeout o |}
  end.

Fixpoint queue_all (progress : gmap nat string) (i count : nat)
  : gmap nat string :=
  match count with
  | 0 => progress
  | S count' => queue_all (<[i := "QUEUED"]> progress) (S i) count'
  end.

Definition orchestrate (o : TaskOrchestrator) (userInput : string)
  : Orchestration :=
  let o := with_maps o ∅ ∅ in
  let '(planning, decomposition) := decomposeTask o userInput (numAgents o) in
  match decomposition with
  | Throw e =>
      {| answer := Throw e; planning := planning; dispatched := None;
         results := []; synthesis := None; after := o |}
  | Normal subtasks =>
      let o :=
        with_maps o (queue_all (agentProgress o) 0 (numAgents o))
          (agentResults o) in
      match subtasks with
      | JArr subtasks =>
          let '(agentResults, o) := run_agents o 0 subtasks in
          let results := mapi (settled_result o) 0 agentResults in
          let results := sort_by_id results in
          let '(finalResult, synthesis) := aggregateResults o results in
          {| answer := finalResult; planning := planning;
             dispatched := Some subtasks; results := results;
             synthesis := synthesis; after := o |}
      | _ =>
          {| answer := Throw (TypeError "subtasks.map is not a function");
             planning := planning; dispatched := None; results := [];
             synthesis := None; after := o |}
      end
  end.

End WithWorld.

End Orchestrator.

(** ** Reading a run: the vocabulary of the properties *)

Module Trace.
Import JS Agent.

Definition is_completion (toolCall : ToolCall) : bool :=
  String.eqb (function_name toolCall) completion_tool.

(** An assistant message whose tool calls include the completion tool. *)
Definition signals (m : Message) : bool :=
  match m with
  | AssistantMessage _ (Some toolCalls) => existsb is_completion toolCalls
  | _ => false
  end.

(** The texts of the assistant messages that are neither [null] nor
    empty, in order. *)
Fixpoint texts (ms : list Message) : list string :=
  match ms with
  | [] => []
  | AssistantMessage (Some text) _ :: rest =>
      if String.eqb text "" then texts rest else text :: texts rest
  | _ :: rest => texts rest
  end.

(** Texts joined by blank lines: two line feeds between one text and
    the next. *)
Fixpoint paragraphs (texts : list string) : string :=
  match texts with
  | [] => ""
  | [text] => text
  | text :: rest =>
      text +:+ String "010" (String "010" (paragraphs rest))
  end.

Definition reply_message (reply : AssistantReply) : Message :=
  AssistantMessage (content reply) (tool_calls reply).

Definition batch (reply : AssistantReply) : list ToolCall :=
  match tool_calls reply with
  | Some toolCalls => toolCalls
  | None => []
  end.


(** What [run] returns when the iterations are used up: the texts
    joined by blank lines, or the fixed message when there is none. *)
Definition exhausted_result (log : list string) : string :=
  match log with
  | [] => "Maximum iterations reached. The agent may be stuck in a loop."
  | _ => paragraphs log
  end.

(** [text] occurs in [s]. *)
Definition occurs_in (text s : string) : Prop :=
  exists before after : string, s = before +:+ text +:+ after.

Section WithRuntime.
Context `{Runtime}.

(** The tool messages of the calls [toolCalls], handled one after the
    other from the conversation [history]. *)
Fixpoint handled (a : OpenRouterAgent) (history : list Message)
    (toolCalls : list ToolCall) : list Message :=
  match toolCalls with
  | [] => []
  | toolCall :: rest =>
      let m := handleToolCall a history toolCall in
      m :: handled a (history ++ [m]) rest
  end.

(** What an iteration reads for the request [q]: the first message of
    the response of [callLLM]. *)
Definition reply_to (a : OpenRouterAgent) (q : list Message)
  : Completion AssistantReply :=
  let! response := callLLM a q in
  first_message response.



(** The client raised on the request [q]. *)
Definition client_raises (a : OpenRouterAgent) (q : list Message) : Prop :=
  exists e,
    client a {| request_model := openrouter_model (config a);
                request_messages := q;
                request_tools := tools a |} = Throw e.


End WithRuntime.
End Trace.

(** ** Reading an orchestration *)

Module Outcome.
Import JS Orchestrator.

Definition is_success (r : AgentResult) : bool :=
  String.eqb (status r) "success".

(** The texts given to [aggregateConsensus]. *)
Definition successful_responses (results : list AgentResult) : list string :=
  List.map response (List.filter is_success results).

(** The heading of the [i]-th response in the fallback text, counted
    from zero. *)
Definition fallback_heading (i : nat) : string :=
  "=== Agent " +:+ Number_toString (i + 1) +:+ " Response ===".

(** No dollar sign occurs in the text. *)
Fixpoint dollar_free (s : string) : bool :=
  match s with
  | EmptyString => true
  | String c rest => negb (Ascii.eqb c "$") && dollar_free rest
  end.

(** [s] with the first occurrence of [placeholder] replaced by [text] as
    it stands; [s] when there is none. *)
Definition substitute (s placeholder text : string) : string :=
  match find_first placeholder s with
  | Some (before, after) => before +:+ text +:+ after
  | None => s
  end.

(** The synthesis prompt in the words of the specification: the template
    with the response-count placeholder replaced by the number of
    responses and the agent-responses placeholder by the labelled
    responses. *)
Definition specified_synthesis_prompt (template : string)
    (responses : list string) : string :=
  substitute
    (substitute template "{num_responses}"
       (Number_toString (length responses)))
    "{agent_responses}" (agentResponsesText 0 responses).

Section WithWorld.
Context `{Runtime}.
Variable w : World.

(** The run of worker [i] on its sub-task. *)
Definition worker_run (config : Config) (i : nat) (subtask : json)
  : Agent.Run :=
  Agent.run (Agent.new (environment w (Worker i)) config true) subtask.

(** The Agent Result of worker [i]: what [runAgentParallel] resolves to. *)
Definition worker_result (config : Config) (i : nat) (subtask : json)
  : AgentResult :=
  match Agent.settled (worker_run config i subtask) with
  | Normal text =>
      {| agent_id := i; status := "success"; response := text;
         execution_time := elapsed w i |}
  | Throw error =>
      {| agent_id := i; status := "error";
         response := "Error: " +:+ toString error; execution_time := 0 |}
  end.

End WithWorld.
End Outcome.

(** ** Concrete agents and worlds, after the test suites *)

Module Scenario.
Import JS.

Definition test_config (agents : nat) : Config :=
  {| openrouter_model := "test-model";
     system_prompt := "Test prompt";
     agent_max_iterations := 5;
     parallel_agents := agents;
     task_timeout := 300;
     aggregation_strategy := "consensus";
     question_generation_prompt :=
       "Generate {num_agents} questions for: {user_input}";
     synthesis_prompt :=
       "Synthesize {num_responses} responses: {agent_responses}" |}.

(** A response whose first message has the content and the tool
    calls. *)
Definition reply (content : option string)
    (toolCalls : option (list Agent.ToolCall)) : Agent.Response :=
  Agent.WithMessage
    {| Agent.content := content; Agent.tool_calls := toolCalls |}.

(** A client that always replies the text, with no tool call. *)
Definition says (text : string) : Agent.Client :=
  fun _ => Normal (reply (Some text) None).

(** A client that always replies the text and the tool calls. *)
Definition calls (text : string) (toolCalls : list Agent.ToolCall)
  : Agent.Client :=
  fun _ => Normal (reply (Some text) (Some toolCalls)).

(** A response whose [choices] is the empty list, and one that has no
    [choices] at all, with the TypeError of [response.choices[0].message]
    on each. *)
Definition empty_choices : Agent.Response :=
  Agent.WithoutMessage
    (mkError "TypeError"
       "Cannot read properties of undefined (reading 'message')").

Definition no_choices : Agent.Response :=
  Agent.WithoutMessage
    (mkError "TypeError" "Cannot read properties of undefined (reading '0')").

(** The number of assistant messages of a conversation: the replies
    given so far. *)
Fixpoint turns (messages : list Agent.Message) : nat :=
  match messages with
  | [] => 0
  | Agent.AssistantMessage _ _ :: rest => S (turns rest)
  | _ :: rest => turns rest
  end.

(** A client that gives the responses of a script in turn, and is
    rejected once the script is used up. *)
Definition scripted (script : list Agent.Response) : Agent.Client :=
  fun request =>
    match nth_error script (turns (Agent.request_messages request)) with
    | Some response => Normal response
    | None => Throw (Error "No more replies")
    end.

(** A client whose call is rejected. *)
Definition fails (message : string) : Agent.Client :=
  fun _ => Throw (Error message).

Definition no_tools (client : Agent.Client) : Agent.Environment :=
  {| Agent.openai := client; Agent.discoverTools := [] |}.

Definition agent_of (client : Agent.Client) : Agent.OpenRouterAgent :=
  Agent.new (no_tools client) (test_config 4) true.

Definition completion_call : Agent.ToolCall :=
  {| Agent.id := "call_1";
     Agent.function_name := "mark_task_complete";
     Agent.function_arguments := "{}" |}.






Definition task : json := JStr "Test input".


(** A world by its three kinds of clients; no tools, every run of a
    worker measured at 100 ms. *)
Definition world_of (planner : Agent.Client)
    (worker : nat -> Agent.Client) (synthesizer : Agent.Client)
  : Orchestrator.World :=
  {| Orchestrator.environment :=
       fun role =>
         match role with
         | Orchestrator.Planner => no_tools planner
         | Orchestrator.Worker i => no_tools (worker i)
         | Orchestrator.Synthesizer => no_tools synthesizer
         end;
     Orchestrator.elapsed := fun _ => 100%Z |}.

(** A client that replies the text and calls the completion tool. *)
Definition completes (text : string) : Agent.Client :=
  calls text [completion_call].

Definition orchestrator_of (agents : nat) : Orchestrator.TaskOrchestrator :=
  Orchestrator.new (test_config agents) true.

(** Five agents are configured and the planning call fails. *)
Definition five_agents_world : Orchestrator.World :=
  world_of (fails "AI failed") (fun _ => completes "Answer")
    (completes "Synth").

(** Every worker fails. *)
Definition all_fail_world : Orchestrator.World :=
  world_of (fails "AI failed") (fun _ => fails "Agent error")
    (completes "Synth").

(** Worker 1 succeeds, the others fail. *)
Definition one_success_world : Orchestrator.World :=
  world_of (fails "AI failed")
    (fun i => match i with
              | 1 => completes "Only response"
              | _ => fails "Agent error"
              end)
    (completes "Synth").

(** The workers answer R1, R2, R3 and the synthesis model replies. *)
Definition numbered (i : nat) : string := "R" +:+ Number_toString (i + 1).

Definition three_world : Orchestrator.World :=
  world_of (fails "AI failed") (fun i => completes (numbered i))
    (completes "Synth").

(** The same workers; the synthesis call fails. *)
Definition synthesis_fails_world : Orchestrator.World :=
  world_of (fails "AI failed") (fun i => completes (numbered i))
    (fails "Synthesis failed").

(** Worker 0 answers with a formula between doubled dollar signs. *)
Definition formula : string := "The area is $$x^2$$".

Definition dollar_world : Orchestrator.World :=
  world_of (fails "AI failed")
    (fun i => match i with
              | 0 => completes formula
              | _ => completes (numbered i)
              end)
    (completes "Synth").


(** The model of the planning agent replies a JSON string of three
    characters, quotes included in the reply. *)
Definition string_reply_world : Orchestrator.World :=
  world_of (completes (dquote +:+ "abc" +:+ dquote))
    (fun i => completes (numbered i)) (completes "Synth").

End Scenario.

(** ** The shape of a conversation *)

Module Shape.
Import JS Agent Trace.

(** The tool message [m] answers the tool call: it carries its [id] and
    its name. *)
Definition answers (toolCall : ToolCall) (m : Message) : Prop :=
  exists payload : string,
    m = ToolMessage (id toolCall) (function_name toolCall) payload.

(** The calls of a batch that are handled: all of them up to the first
    call of the completion tool, that one included. *)
Fixpoint through_completion (toolCalls : list ToolCall) : list ToolCall :=
  match toolCalls with
  | [] => []
  | toolCall :: rest =>
      if is_completion toolCall then [toolCall]
      else toolCall :: through_completion rest
  end.

(** A sequence of rounds: an assistant message, then one tool message
    for each handled call of its batch, in the order of the calls. *)
Inductive Rounds : list Message -> Prop :=
| rounds_end : Rounds []
| rounds_round (c : option string) (toolCalls : option (list ToolCall))
    (toolMessages rest : list Message) :
    Forall2 answers
      (through_completion
         (batch {| content := c; tool_calls := toolCalls |}))
      toolMessages ->
    Rounds rest ->
    Rounds (AssistantMessage c toolCalls :: toolMessages ++ rest).

(** The names under which the agent offers tools to the model. *)
Definition offered (a : OpenRouterAgent) : list string :=
  List.map schema_name (tools a).

(** Where the content of a tool message of name [n] comes from: a tool
    mapped under that name returned it, or it is one of the two error
    objects of [handleToolCall]. *)
Inductive Payload (a : OpenRouterAgent) (n : string) : string -> Prop :=
| payload_result (tool : ToolFn) (history : list Message) (toolArgs : json)
    (toolResult : string) :
    toolMapping a !! n = Some tool ->
    tool history toolArgs = Normal toolResult ->
    Payload a n toolResult
| payload_unknown :
    toolMapping a !! n = None ->
    Payload a n (stringify_error ("Unknown tool: " +:+ n))
| payload_failed (error : JSError) :
    Payload a n
      (stringify_error ("Tool execution failed: " +:+ toString error)).

Definition accounted (a : OpenRouterAgent) (m : Message) : Prop :=
  match m with
  | ToolMessage _ n payload => Payload a n payload
  | _ => True
  end.

(** The content of a tool message is an error object. *)
Definition reports_error (m : Message) : Prop :=
  match m with
  | ToolMessage _ _ payload => exists text, payload = stringify_error text
  | _ => True
  end.

End Shape.

(** ** What an orchestration leaves in the two maps *)

Module Ledger.
Import JS Orchestrator Outcome.

Section WithWorld.
Context `{Runtime}.
Variable w : World.

(** The text [runAgentParallel] leaves in the progress map at the end. *)
Definition final_status (config : Config) (i : nat) (subtask : json)
  : string :=
  if is_throw (Agent.settled (worker_run w config i subtask))
  then "PROCESSING..." else "COMPLETED".

(** The text it leaves in the map of results, when it leaves one. *)
Definition final_text (config : Config) (i : nat) (subtask : json)
  : option string :=
  match Agent.settled (worker_run w config i subtask) with
  | Normal text => Some text
  | Throw _ => None
  end.

(** The calls of the model made by the workers of the sub-tasks, from
    index [i]. *)
Fixpoint worker_calls (config : Config) (i : nat) (subtasks : list json)
  : nat :=
  match subtasks with
  | [] => 0
  | subtask :: rest =>
      Agent.llm_calls (worker_run w config i subtask)
      + worker_calls config (S i) rest
  end.

(** The calls of the model made in an orchestration: by the planning
    agent, by the workers and by the synthesis agent. *)
Definition model_calls (o : TaskOrchestrator) (r : Orchestration) : nat :=
  Agent.llm_calls (planning r)
  + match dispatched r with
    | Some subtasks => worker_calls (config o) 0 subtasks
    | None => 0
    end
  + match synthesis r with
    | Some run => Agent.llm_calls run
    | None => 0
    end.

End WithWorld.
End Ledger.

(** ** The file reading tool: [class ReadFileTool]

    [src/tools/read-file-tool.ts].  The file system is outside the
    program: [fs.existsSync], [fs.statSync(..).isFile()] and
    [fs.readFileSync(.., 'utf-8')] are oracles of the value they are
    given.  The agent calls a mapped tool with the parsed arguments as
    its one argument, so the parameter [path] is any JSON value here,
    and [head] and [tail] are [undefined] ([None]) or an integer. *)

Module ReadFileTool.
Import JS Agent.

(** [s.split('\n')] *)
Fixpoint split_lines (s : string) : list string :=
  match s with
  | EmptyString => [""]
  | String c rest =>
      if Ascii.eqb c "010" then "" :: split_lines rest
      else
        match split_lines rest with
        | line :: lines => String c line :: lines
        | [] => [String c ""]
        end
  end.

(** The index an argument of [slice] stands for in an array of [len]
    items: counted from the end when it is negative. *)
Definition relative_index (len : nat) (i : Z) : nat :=
  if (i <? 0)%Z then Z.to_nat (Z.max (Z.of_nat len + i) 0)
  else Nat.min (Z.to_nat i) len.

(** [xs.slice(start, final)], and [xs.slice(start)] when [final] is
    [None]. *)
Definition slice {A : Type} (xs : list A) (start : Z) (final : option Z)
  : list A :=
  let len := length xs in
  let k := relative_index len start in
  let final :=
    match final with
    | Some final => relative_index len final
    | None => len
    end in
  firstn (final - k) (skipn k xs).

(** [s.replace(/\n$/, '')]: without the last character when it is a
    line feed. *)
Fixpoint strip_final_newline (s : string) : string :=
  match s with
  | EmptyString => ""
  | String c rest =>
      if Ascii.eqb c "010" && String.eqb rest "" then ""
      else String c (strip_final_newline rest)
  end.

(** The file system as the three calls see it. *)
Record FileSystem := {
  existsSync : json -> bool;
  isFile : json -> Completion bool;
  readFileSync : json -> Completion string
}.

(** The object returned: [{ error }] or
    [{ path, content, success: true }]. *)
Inductive ToolResult : Type :=
| Failure (error : string)
| Contents (path : json) (content : string).

Section WithNumbers.

(** [Number::toString] for the value of a JSON number, and
    [JSON.stringify] of a value that is not a string: both are left
    open. *)
Variable Number_text : Q -> string.
Variable JSON_stringify : json -> string.

(** [`${v}`] for a value [JSON.parse] gave.  An object has the text of
    [Object.prototype.toString] unless it has a member [toString] of its
    own, which is no function: the conversion then throws.  An array is
    joined with commas, [null] items left empty. *)
Fixpoint template_text (v : json) : Completion string :=
  match v with
  | JNull => Normal "null"
  | JBool true => Normal "true"
  | JBool false => Normal "false"
  | JNum q => Normal (Number_text q)
  | JStr s => Normal s
  | JArr xs =>
      let item (x : json) : Completion string :=
        match x with
        | JNull => Normal ""
        | _ => template_text x
        end in
      let! texts :=
        (fix items (xs : list json) : Completion (list string) :=
           match xs with
           | [] => Normal []
           | x :: rest =>
               let! text := item x in
               let! texts := items rest in
               Normal (text :: texts)
           end) xs in
      Normal (join "," texts)
  | JObj members =>
      match get_member "toString" members with
      | Some _ =>
          Throw (mkError "TypeError"
                   "Cannot convert object to primitive value")
      | None => Normal "[object Object]"
      end
  end.

Definition execute (fs : FileSystem) (path : json) (head tail : option Z)
  : ToolResult :=
  let attempt : Completion ToolResult :=
    match head, tail with
    | Some _, Some _ =>
        Normal (Failure "Cannot specify both head and tail parameters")
    | _, _ =>
        if negb (existsSync fs path) then
          let! text := template_text path in
          Normal (Failure ("File not found: " +:+ text))
        else
          let! is_file := isFile fs path in
          if negb is_file then
            let! text := template_text path in
            Normal (Failure ("Path is not a file: " +:+ text))
          else
            match head, tail with
            | Some head, _ =>
                let! content := readFileSync fs path in
                let lines := slice (split_lines content) 0 (Some head) in
                Normal (Contents path (strip_final_newline (join nl lines)))
            | None, Some tail =>
                let! content := readFileSync fs path in
                let lines := split_lines content in
                let resultLines := slice lines (- tail) None in
                Normal (Contents path
                          (strip_final_newline (join nl resultLines)))
            | None, None =>
                let! content := readFileSync fs path in
                Normal (Contents path content)
            end
    end in
  match attempt with
  | Normal result => result
  | Throw error => Failure ("Failed to read file: " +:+ err_message error)
  end.

(** [JSON.stringify] of the object returned. *)
Definition stringify (result : ToolResult) : string :=
  match result with
  | Failure error => stringify_error error
  | Contents path content =>
      "{" +:+ QuoteJSONString "path" +:+ ":"
      +:+ match path with
          | JStr p => QuoteJSONString p
          | _ => JSON_stringify path
          end
      +:+ "," +:+ QuoteJSONString "content" +:+ ":"
      +:+ QuoteJSONString content
      +:+ "," +:+ QuoteJSONString "success" +:+ ":true}"
  end.

(** [tool.execute.bind(tool)] as [handleToolCall] calls it, with the
    parsed arguments and nothing else; [fs_at] is the file system at the
    time of the call. *)
Definition bound (fs_at : list Message -> FileSystem) : ToolFn :=
  fun history toolArgs =>
    Normal (stringify (execute (fs_at history) toolArgs None None)).

Definition tool (fs_at : list Message -> FileSystem) : BaseTool :=
  {| Agent.name := "read_file";
     Agent.description :=
       "Read the complete contents of a file from the file system. "
       +:+ "Handles various text encodings and provides detailed error "
       +:+ "messages if the file cannot be read.";
     Agent.parameters :=
       JObj
         [ ("type", JStr "object");
           ("properties",
            JObj
              [ ("path",
                 JObj [ ("type", JStr "string");
                        ("description", JStr "The file path to read") ]);
                ("head",
                 JObj [ ("type", JStr "integer");
                        ("description",
                         JStr ("If provided, returns only the first N "
                               +:+ "lines of the file")) ]);
                ("tail",
                 JObj [ ("type", JStr "integer");
                        ("description",
                         JStr ("If provided, returns only the last N "
                               +:+ "lines of the file")) ]) ]);
           ("required", JArr [JStr "path"]) ];
     Agent.execute := bound fs_at |}.

End WithNumbers.

(** The text [p] is an initial part, a final part, of the text [s]. *)
Definition initial_part (p s : string) : Prop :=
  exists rest : string, s = p +:+ rest.

Definition final_part (p s : string) : Prop :=
  exists before : string, s = before +:+ p.

(** The number of line feeds of a text. *)
Fixpoint line_feeds (s : string) : nat :=
  match s with
  | EmptyString => 0
  | String c rest =>
      (if Ascii.eqb c "010" then 1 else 0) + line_feeds rest
  end.

(** A file system of one regular file, found under its name alone. *)
Definition one_file (name content : string) : FileSystem :=
  let found (path : json) : bool :=
    match path with
    | JStr p => String.eqb p name
    | _ => false
    end in
  {| existsSync := found;
     isFile := fun path =>
       if found path then Normal true
       else Throw (Error "ENOENT: no such file or directory");
     readFileSync := fun path =>
       if found path then Normal content
       else Throw (Error "ENOENT: no such file or directory") |}.

(** A call of [read_file] as the schema of the tool asks for it. *)
Definition read_call : ToolCall :=
  {| id := "call_7";
     function_name := "read_file";
     function_arguments :=
       "{" +:+ dquote +:+ "path" +:+ dquote +:+ ": "
       +:+ dquote +:+ "notes.txt" +:+ dquote +:+ ", "
       +:+ dquote +:+ "head" +:+ dquote +:+ ": 1}" |}.

End ReadFileTool.

(** ** The command line of the orchestrator: [class OrchestratorCLI]

    [src/make-it-heavy.ts].  Here the output is the subject: what
    [console.clear], [console.log] and [process.stdout.write] are called
    with, in order.  The text of [formatTime] for the time elapsed
    depends on the clock and is given to [updateDisplay]; the refreshes
    of the timer of [progressMonitor] while an orchestration runs are
    left out. *)

Module CLI.
Import JS Orchestrator.

(** The escape character, written [\x1b] in the source. *)
Definition ESC : string := String (ascii_of_nat 27) EmptyString.

Definition ORANGE : string := ESC +:+ "[38;5;208m".
Definition RED : string := ESC +:+ "[91m".
Definition RESET : string := ESC +:+ "[0m".

(** [s.repeat(count)] *)
Fixpoint repeat_text (s : string) (count : nat) : string :=
  match count with
  | 0 => ""
  | S count' => s +:+ repeat_text s count'
  end.

(** [s.startsWith(p)] *)
Definition startsWith (s p : string) : bool :=
  match strip_prefix p s with
  | Some _ => true
  | None => false
  end.

(** [s.padStart(targetLength, fill)] for a filler of one character. *)
Definition padStart (s : string) (targetLength : nat) (fill : string)
  : string :=
  repeat_text fill (targetLength - utf16_length s) +:+ s.

Definition createProgressBar (status : string) : string :=
  if String.eqb status "QUEUED" then
    "○ " +:+ repeat_text "·" 70
  else if String.eqb status "INITIALIZING..." then
    (ORANGE +:+ "◐" +:+ RESET +:+ " ") +:+ repeat_text "·" 70
  else if String.eqb status "PROCESSING..." then
    let dots :=
      repeat_text (ORANGE +:+ ":" +:+ RESET) 10 +:+ repeat_text "·" 60 in
    (ORANGE +:+ "●" +:+ RESET +:+ " ") +:+ dots
  else if String.eqb status "COMPLETED" then
    (ORANGE +:+ "●" +:+ RESET +:+ " ")
    +:+ repeat_text (ORANGE +:+ ":" +:+ RESET) 70
  else if startsWith status "FAILED" then
    (RED +:+ "✗" +:+ RESET +:+ " ") +:+ repeat_text (RED +:+ "×" +:+ RESET) 70
  else
    (ORANGE +:+ "◐" +:+ RESET +:+ " ") +:+ repeat_text "·" 70.

Record OrchestratorCLI := {
  orchestrator : TaskOrchestrator;
  startTime : option Z;
  running : bool;
  modelDisplay : string
}.

Inductive Output : Type :=
| Clear
| Log (line : string)
| Write (text : string).

(** [progress.get(i) || 'QUEUED']: an empty status counts as none. *)
Definition status_of (progress : gmap nat string) (i : nat) : string :=
  match progress !! i with
  | Some status => if String.eqb status "" then "QUEUED" else status
  | None => "QUEUED"
  end.

(** The line of agent [i]. *)
Definition agent_row (progress : gmap nat string) (i : nat) : string :=
  let status := status_of progress i in
  let progressBar := createProgressBar status in
  "AGENT " +:+ padStart (Number_toString (i + 1)) 2 "0" +:+ "  "
  +:+ progressBar.

(** The lines of the [for] loop of [updateDisplay]. *)
Definition agent_rows (numAgents : nat) (progress : gmap nat string)
  : list string :=
  List.map (agent_row progress) (seq 0 numAgents).

Definition updateDisplay (cli : OrchestratorCLI) (timeStr : string)
  : list Output :=
  if negb (running cli) then []
  else
    let progress := getProgressStatus (orchestrator cli) in
    [ Clear;
      Log (modelDisplay cli);
      Log (if running cli then "● RUNNING • " +:+ timeStr
           else "● COMPLETED • " +:+ timeStr);
      Log "" ]
    ++ List.map Log (agent_rows (numAgents (orchestrator cli)) progress)
    ++ [ Log ""; Write (ESC +:+ "[?25l") ].

Section WithWorld.
Context `{Runtime}.
Variable w : World.

(** What [runTask] returns ([None] for [null]), what it prints once the
    orchestration has settled, and the object afterwards; [now] is the
    time of the call. *)
Definition runTask (cli : OrchestratorCLI) (now : Z) (timeStr : string)
    (userInput : string) : option string * list Output * OrchestratorCLI :=
  let r := orchestrate w (orchestrator cli) userInput in
  let cli :=
    {| orchestrator := after r; startTime := Some now; running := false;
       modelDisplay := modelDisplay cli |} in
  match answer r with
  | Normal result =>
      (Some result,
       updateDisplay cli timeStr
       ++ [ Log (repeat_text "=" 80); Log "FINAL RESULTS";
            Log (repeat_text "=" 80); Log ""; Log result; Log "";
            Log (repeat_text "=" 80) ],
       cli)
  | Throw error =>
      (None,
       updateDisplay cli timeStr
       ++ [ Log (nl +:+ "Error during orchestration: " +:+ toString error) ],
       cli)
  end.

End WithWorld.

End CLI.
(** * Proofs *)

(** Lists of messages are compared after their appends are put in one
    shape. *)
Ltac norm_app := repeat (rewrite <- app_assoc || rewrite <- app_comm_cons).

(** * Properties of the agent loop *)

Module AgentFacts.
Import JS Agent Trace.







Section WithRuntime.
Context `{Runtime}.
Variable a : OpenRouterAgent.





(** One iteration of the loop. *)
Lemma loop_S (k : nat) (m : list Message) (log : list string)
    (reqs : list (list Message)) :
  loop a (S k) m log reqs =
  match reply_to a m with
  | Throw error =>
      {| settled := Throw error; conversation := m;
         requests := reqs ++ [m] |}
  | Normal reply =>
      match tool_calls reply with
      | Some toolCalls =>
          let '(ms, returned) :=
            dispatch a toolCalls (m ++ [reply_message reply]) in
          if returned then
            {| settled :=
                 Normal (full_content (capture log (content reply)));
               conversation := ms;
               requests := reqs ++ [m] |}
          else loop a k ms (capture log (content reply)) (reqs ++ [m])
      | None =>
          loop a k (m ++ [reply_message reply])
            (capture log (content reply)) (reqs ++ [m])
      end
  end.
Proof.
  unfold reply_to, bind. simpl.
  destruct (callLLM a m) as [response|error]; [|done].
  by destruct (first_message response).
Qed.


End WithRuntime.
End AgentFacts.

Module AgentProperties.
Import JS Agent Trace AgentFacts.



Section WithRuntime.
Context `{Runtime}.
Variable a : OpenRouterAgent.



Lemma callLLM_raises (q : list Message) :
  (exists e, callLLM a q = Throw e) <-> client_raises a q.
Proof.
  unfold callLLM, client_raises, try_catch.
  destruct (client a _) as [reply|e]; split; intros [e' He]; try done; eauto.
Qed.






End WithRuntime.

(** The vocabulary on two conversations: [texts] leaves out the tool
    messages, the [null] and the empty contents and keeps the order;
    [paragraphs] puts two line feeds between one text and the next, and
    none at either end. *)
Example texts_and_paragraphs :
  texts [ SystemMessage "S"; UserMessage (JStr "U");
          AssistantMessage (Some "a") None; ToolMessage "1" "t" "x";
          AssistantMessage None None; AssistantMessage (Some "") None;
          AssistantMessage (Some "b") (Some []);
          AssistantMessage (Some "c") None ]
  = ["a"; "b"; "c"] /\
  paragraphs ["a"; "b"; "c"]
  = "a" +:+ nl +:+ nl +:+ "b" +:+ nl +:+ nl +:+ "c" /\
  paragraphs ["a"] = "a" /\
  paragraphs [] = "" /\
  exhausted_result []
  = "Maximum iterations reached. The agent may be stuck in a loop." /\
  exhausted_result ["a"; "b"] = "a" +:+ nl +:+ nl +:+ "b".
Proof. repeat split. Qed.




(** It fails as well when a call returns a response that has no first
    message, here one whose list of choices is empty: no model call
    raises and no completion tool is called, yet there is one model
    call and [run] raises the TypeError of the read. *)
Example exhaustion_fails_without_choices :
  let a := Scenario.agent_of (Scenario.scripted [Scenario.empty_choices]) in
  let r := run (H := JSONText.runtime) a Scenario.task in
  Forall (fun m => signals m = false) (conversation r) /\
  callLLM a (initial_messages a Scenario.task)
  = Normal Scenario.empty_choices /\
  agent_max_iterations (config a) = 5 /\
  llm_calls r = 1 /\
  settled r
  = Throw (mkError "TypeError"
             "Cannot read properties of undefined (reading 'message')").
Proof.
  intros a r. split; [|by vm_compute]. vm_compute. by repeat constructor.
Qed.




(** Its first sentence fails too: [run] raises although no call to the
    model raises, when a call returns a response whose first message
    cannot be read, here a response without [choices].  What is raised
    is the TypeError of the read, not the error of [callLLM]. *)
Example run_raises_without_model_failure :
  let a := Scenario.agent_of (Scenario.scripted [Scenario.no_choices]) in
  let r := run (H := JSONText.runtime) a Scenario.task in
  requests r = [initial_messages a Scenario.task] /\
  callLLM a (initial_messages a Scenario.task) = Normal Scenario.no_choices /\
  settled r
  = Throw (mkError "TypeError"
             "Cannot read properties of undefined (reading '0')").
Proof. by vm_compute. Qed.



End AgentProperties.

(** * Properties of the orchestrator *)

Module OrchestratorFacts.
Import JS Orchestrator Trace Outcome.

Lemma mapi_length {A B : Type} (f : nat -> A -> B) (xs : list A) :
  forall i, length (mapi f i xs) = length xs.
Proof. induction xs as [|x xs IH]; intros i; simpl; [done|]. by rewrite IH. Qed.

Lemma mapi_settled (o : TaskOrchestrator) {A : Type}
    (f : nat -> A -> AgentResult) (xs : list A) :
  forall i,
    mapi (settled_result o) i (mapi (fun k x => Normal (f k x)) i xs)
    = mapi f i xs.
Proof. induction xs as [|x xs IH]; intros i; simpl; [done|]. by rewrite IH. Qed.

(** A list whose identifiers count up from [i] is left as it is by the
    sort. *)
Lemma sort_by_id_counted (rs : list AgentResult) :
  forall i,
    List.map agent_id rs = seq i (length rs) -> sort_by_id rs = rs.
Proof.
  induction rs as [|r rs IH]; intros i Hids; [done|].
  simpl in Hids. injection Hids as Hr Hrest.
  unfold sort_by_id in *. simpl. rewrite (IH (S i) Hrest).
  destruct rs as [|r' rs]; [done|].
  simpl in Hrest. injection Hrest as Hr' _. simpl.
  rewrite Hr, Hr'. by rewrite (leb_correct i (S i)) by lia.
Qed.

Lemma filter_none (rs : list AgentResult) :
  Forall (fun r => status r <> "success") rs ->
  List.filter (fun r => String.eqb (status r) "success") rs = [].
Proof.
  induction 1 as [|r rs Hr _ IH]; [done|]. simpl.
  destruct (String.eqb_spec (status r) "success"); [done|exact IH].
Qed.

Lemma append_cons (c : ascii) (s t : string) :
  String c s +:+ t = String c (s +:+ t).
Proof. reflexivity. Qed.

Lemma append_assoc (a b c : string) : (a +:+ b) +:+ c = a +:+ (b +:+ c).
Proof.
  induction a as [|x a IH]; [reflexivity|]. by rewrite !append_cons, IH.
Qed.

Lemma append_empty_r (a : string) : a +:+ EmptyString = a.
Proof.
  induction a as [|x a IH]; [reflexivity|]. by rewrite append_cons, IH.
Qed.

Lemma join_cons (sep x y : string) (rest : list string) :
  join sep (x :: y :: rest) = x +:+ sep +:+ join sep (y :: rest).
Proof. reflexivity. Qed.

(** Each response stands in the fallback text under its heading. *)
Lemma fallback_text_occurrence (responses : list string) :
  forall (i k : nat) (resp : string),
    responses !! k = Some resp ->
    occurs_in (fallback_heading (i + k) +:+ nl +:+ resp +:+ nl)
      (join nl (combined i responses)).
Proof.
  induction responses as [|r rest IH]; intros i k resp Hk; [done|].
  change (combined i (r :: rest))
    with (fallback_heading i :: r :: EmptyString :: combined (S i) rest).
  rewrite !join_cons.
  destruct k as [|k]; simpl in Hk.
  - injection Hk as ->. rewrite Nat.add_0_r.
    exists EmptyString, (join nl (EmptyString :: combined (S i) rest)).
    change (EmptyString +:+ ?x) with x. by rewrite !append_assoc.
  - destruct (IH (S i) k resp Hk) as (before & after & Htext).
    destruct rest as [|r' rest]; [done|].
    change (combined (S i) (r' :: rest))
      with (fallback_heading (S i) :: r' :: EmptyString
              :: combined (S (S i)) rest) in *.
    rewrite join_cons, Htext.
    replace (i + S k) with (S i + k) by lia.
    exists (fallback_heading i +:+ nl +:+ r +:+ nl +:+ EmptyString +:+ nl
              +:+ before), after.
    by rewrite !append_assoc.
Qed.

Lemma dollar_free_app (a b : string) :
  dollar_free (a +:+ b) = dollar_free a && dollar_free b.
Proof.
  induction a as [|x a IH]; [reflexivity|].
  rewrite append_cons. simpl. rewrite IH. by rewrite andb_assoc.
Qed.

Lemma dollar_free_digits (d : Decimal.uint) :
  dollar_free (NilEmpty.string_of_uint d) = true.
Proof. induction d; simpl; done. Qed.

Lemma GetSubstitution_dollar_free (matched before after text : string) :
  dollar_free text = true ->
  GetSubstitution matched before after text = text.
Proof.
  induction text as [|c text IH]; [done|]. simpl.
  intros [Hc Htext]%andb_true_iff. apply negb_true_iff in Hc.
  rewrite Hc. by rewrite IH.
Qed.

Lemma replace_dollar_free (s placeholder text : string) :
  dollar_free text = true ->
  replace s placeholder text = substitute s placeholder text.
Proof.
  intros Htext. unfold replace, substitute.
  destruct (find_first placeholder s) as [[before after]|]; [|done].
  by rewrite GetSubstitution_dollar_free.
Qed.

Lemma dollar_free_agentResponsesText (responses : list string) :
  forall i,
    Forall (fun r => dollar_free r = true) responses ->
    dollar_free (agentResponsesText i responses) = true.
Proof.
  induction responses as [|r rest IH]; intros i Hfree; [done|].
  apply Forall_cons in Hfree as [Hr Hrest]. simpl.
  rewrite !dollar_free_app, Hr, (IH (S i) Hrest).
  unfold Number_toString. by rewrite dollar_free_digits.
Qed.

Section WithWorld.
Context `{Runtime}.
Variable w : World.

(** Without a dollar sign in the responses the prompt is the specified
    one. *)
Lemma synthesisPrompt_dollar_free (o : TaskOrchestrator)
    (responses : list string) :
  Forall (fun r => dollar_free r = true) responses ->
  synthesisPrompt o responses
  = specified_synthesis_prompt (synthesis_prompt (config o)) responses.
Proof.
  intros Hfree. unfold synthesisPrompt, specified_synthesis_prompt.
  rewrite (replace_dollar_free _ "{num_responses}")
    by apply dollar_free_digits.
  by rewrite replace_dollar_free by by apply dollar_free_agentResponsesText.
Qed.

Lemma runAgentParallel_result (o : TaskOrchestrator) (i : nat)
    (subtask : json) :
  fst (runAgentParallel w o i subtask)
  = Normal (worker_result w (config o) i subtask) /\
  config (snd (runAgentParallel w o i subtask)) = config o /\
  taskTimeout (snd (runAgentParallel w o i subtask)) = taskTimeout o /\
  aggregationStrategy (snd (runAgentParallel w o i subtask))
  = aggregationStrategy o.
Proof.
  unfold runAgentParallel, worker_result, worker_run. simpl.
  by destruct (Agent.settled _).
Qed.

Lemma run_agents_settlements (subtasks : list json) :
  forall (o : TaskOrchestrator) (i : nat),
    fst (run_agents w o i subtasks)
    = mapi (fun k s => Normal (worker_result w (config o) k s)) i subtasks /\
    config (snd (run_agents w o i subtasks)) = config o.
Proof.
  induction subtasks as [|s ss IH]; intros o i; simpl; [done|].
  destruct (runAgentParallel_result o i s) as (Hres & Hcfg & _).
  destruct (runAgentParallel w o i s) as [settlement o1]. simpl in *.
  destruct (IH o1 (S i)) as [Hrest Hcfg'].
  destruct (run_agents w o1 (S i) ss) as [settlements o2]. simpl in *.
  by rewrite Hres, Hrest, Hcfg', Hcfg.
Qed.

Lemma worker_ids (config : Config) (subtasks : list json) :
  forall i,
    List.map agent_id (mapi (worker_result w config) i subtasks)
    = seq i (length subtasks).
Proof.
  induction subtasks as [|s ss IH]; intros i; simpl; [done|].
  rewrite IH. f_equal. unfold worker_result. by destruct (Agent.settled _).
Qed.

Lemma worker_statuses (config : Config) (subtasks : list json) :
  forall i,
    Forall (fun r => status r = "success" \/ status r = "error")
      (mapi (worker_result w config) i subtasks).
Proof.
  induction subtasks as [|s ss IH]; intros i; simpl; constructor; [|apply IH].
  unfold worker_result. destruct (Agent.settled _); simpl; auto.
Qed.

Lemma aggregateResults_eq (o : TaskOrchestrator) (rs : list AgentResult) :
  aggregateResults w o rs
  = match successful_responses rs with
    | [] => (Normal all_failed_message, None)
    | responses => aggregateConsensus w o responses
    end.
Proof.
  unfold aggregateResults, successful_responses, is_success.
  destruct (List.filter _ rs) as [|r rest]; [done|]. simpl.
  by destruct (String.eqb (aggregationStrategy o) "consensus").
Qed.

(** What [orchestrate] did when it reached [subtasks.map]. *)
Lemma orchestrate_dispatched (o : TaskOrchestrator) (userInput : string)
    (subtasks : list json) :
  dispatched (orchestrate w o userInput) = Some subtasks ->
  snd (decomposeTask w (with_maps o ∅ ∅) userInput (numAgents o))
  = Normal (JArr subtasks) /\
  results (orchestrate w o userInput)
  = mapi (worker_result w (config o)) 0 subtasks /\
  exists o' : TaskOrchestrator,
    config o' = config o /\
    (answer (orchestrate w o userInput), synthesis (orchestrate w o userInput))
    = aggregateResults w o' (results (orchestrate w o userInput)).
Proof.
  unfold orchestrate.
  destruct (decomposeTask w (with_maps o ∅ ∅) userInput
              (numAgents (with_maps o ∅ ∅))) as [plan decomposition] eqn:Hdec.
  change (numAgents (with_maps o ∅ ∅)) with (numAgents o) in Hdec.
  rewrite Hdec. simpl.
  destruct decomposition as [questions|e]; [|done].
  destruct questions as [| | | |xs|]; try done.
  set (o1 := with_maps _ _ _).
  destruct (run_agents_settlements xs o1 0) as [Hsettle Hcfg].
  destruct (run_agents w o1 0 xs) as [settlements o2]. simpl in *.
  assert (Hresults : sort_by_id (mapi (settled_result o2) 0 settlements)
                     = mapi (worker_result w (config o)) 0 xs).
  { rewrite Hsettle, mapi_settled.
    apply (sort_by_id_counted _ 0). by rewrite worker_ids, mapi_length. }
  rewrite Hresults.
  destruct (aggregateResults w o2 _) as [finalResult synth] eqn:Hagg. simpl.
  intros [= <-]. split; [done|]. split; [done|].
  exists o2. by rewrite Hagg.
Qed.

(** When [orchestrate] throws before [runAgentParallel] is called there
    is no Agent Result and no synthesis. *)
Lemma orchestrate_not_dispatched (o : TaskOrchestrator) (userInput : string) :
  dispatched (orchestrate w o userInput) = None ->
  results (orchestrate w o userInput) = [] /\
  synthesis (orchestrate w o userInput) = None.
Proof.
  unfold orchestrate.
  destruct (decomposeTask _ _ _ _) as [plan [questions|e]]; [|done].
  destruct questions; try done.
  destruct (run_agents _ _ _ _). by destruct (aggregateResults _ _ _).
Qed.

(** The sub-tasks are the array the planning agent gave, of the
    configured length, or the fixed questions cut to that length. *)
Lemma decomposeTask_cases (o : TaskOrchestrator) (userInput : string)
    (numAgents : nat) :
  exists questions,
    snd (decomposeTask w o userInput numAgents) = Normal questions /\
    (length_is questions numAgents = Normal true \/
     questions
     = JArr (List.map JStr (slice0 (fallback_questions userInput) numAgents))).
Proof.
  unfold decomposeTask. simpl. unfold bind, try_catch.
  destruct (Agent.settled _) as [response|e]; [|eauto].
  destruct (JSON_parse (trim response)) as [questions|e]; [|eauto].
  destruct (length_is questions numAgents) as [[|]|e] eqn:Hlen; eauto.
Qed.

End WithWorld.
End OrchestratorFacts.

Module OrchestratorProperties.
Import JS Orchestrator Trace Outcome OrchestratorFacts.

Section WithWorld.
Context `{Runtime}.
Variable w : World.

(** The Agent Results of an orchestration that dispatched its sub-tasks
    are numbered from zero, one for each sub-task. *)
Lemma results_cover_dispatched (o : TaskOrchestrator) (userInput : string)
    (subtasks : list json) :
  dispatched (orchestrate w o userInput) = Some subtasks ->
  List.map agent_id (results (orchestrate w o userInput))
  = seq 0 (length subtasks).
Proof.
  intros (_ & -> & _)%orchestrate_dispatched. apply worker_ids.
Qed.

Lemma results_distinct (o : TaskOrchestrator) (userInput : string)
    (subtasks : list json) :
  dispatched (orchestrate w o userInput) = Some subtasks ->
  NoDup (List.map agent_id (results (orchestrate w o userInput))).
Proof.
  intros ->%results_cover_dispatched. apply NoDup_ListNoDup, List.seq_NoDup.
Qed.

(** When the planning agent gives an array of the configured length
    there are as many sub-tasks as agents; the fixed questions give
    at most four. *)
Lemma dispatched_count (o : TaskOrchestrator) (userInput : string)
    (subtasks : list json) :
  dispatched (orchestrate w o userInput) = Some subtasks ->
  length subtasks = numAgents o \/
  subtasks
  = List.map JStr (slice0 (fallback_questions userInput) (numAgents o)) /\
  length subtasks = Nat.min (numAgents o) 4.
Proof.
  intros (Hdec & _)%orchestrate_dispatched.
  destruct (decomposeTask_cases w (with_maps o ∅ ∅) userInput (numAgents o))
    as (questions & Hq & [Hlen| ->]); rewrite Hq in Hdec.
  - injection Hdec as ->. simpl in Hlen. injection Hlen as Hlen.
    left. by apply Nat.eqb_eq.
  - injection Hdec as <-. right. split; [done|].
    unfold slice0. by rewrite length_map, length_firstn.
Qed.

(** With two successful responses or more, a synthesis agent with no
    tool at all is run on the synthesis prompt, and what it returns is
    the answer. *)
Lemma consensus_synthesis (o : TaskOrchestrator) (userInput : string)
    (subtasks : list json) :
  dispatched (orchestrate w o userInput) = Some subtasks ->
  2 <= length (successful_responses (results (orchestrate w o userInput))) ->
  exists o' : TaskOrchestrator,
    config o' = config o /\
    synthesis (orchestrate w o userInput)
    = Some (Agent.run (synthesisAgent w o')
              (JStr (synthesisPrompt o'
                       (successful_responses
                          (results (orchestrate w o userInput)))))) /\
    Agent.tools (synthesisAgent w o') = [] /\
    Agent.toolMapping (synthesisAgent w o') = ∅ /\
    forall text : string,
      Agent.settled
        (Agent.run (synthesisAgent w o')
           (JStr (synthesisPrompt o'
                    (successful_responses
                       (results (orchestrate w o userInput))))))
      = Normal text ->
      answer (orchestrate w o userInput) = Normal text.
Proof.
  intros Hd Htwo.
  destruct (orchestrate_dispatched w o userInput subtasks Hd)
    as (_ & _ & o' & Hcfg & Hagg).
  rewrite aggregateResults_eq in Hagg.
  destruct (successful_responses _) as [|r1 [|r2 rest]];
    [simpl in Htwo; lia|simpl in Htwo; lia|].
  unfold aggregateConsensus in Hagg. injection Hagg as Hans Hs.
  exists o'. repeat split; try done.
  intros text Htext. by rewrite Hans, Htext.
Qed.

(** With at most four agents the Agent Results cover all of them. *)
Lemma results_cover_up_to_four (o : TaskOrchestrator) (userInput : string)
    (subtasks : list json) :
  dispatched (orchestrate w o userInput) = Some subtasks ->
  numAgents o <= 4 ->
  List.map agent_id (results (orchestrate w o userInput))
  = seq 0 (numAgents o).
Proof.
  intros Hd Hfour. rewrite (results_cover_dispatched o userInput subtasks Hd).
  f_equal. destruct (dispatched_count o userInput subtasks Hd) as [|[_ ?]]; lia.
Qed.

End WithWorld.

(** A planning reply that is a JSON string as long as the number of
    agents passes the count test; [subtasks.map] then throws, and
    [orchestrate] with it: nothing is dispatched. *)
Example string_reply_is_not_dispatched :
  let r :=
    orchestrate (H := JSONText.runtime) Scenario.string_reply_world
      (Scenario.orchestrator_of 3) "Main task" in
  answer r = Throw (TypeError "subtasks.map is not a function") /\
  dispatched r = None /\
  results r = [].
Proof. by vm_compute. Qed.

(** The scenario of C4 with three responses: the synthesis agent is
    given the three labelled responses and its reply is the answer. *)
Example three_responses_synthesized :
  let r :=
    orchestrate (H := JSONText.runtime) Scenario.three_world
      (Scenario.orchestrator_of 3) "Main task" in
  successful_responses (results r) = ["R1"; "R2"; "R3"] /\
  answer r = Normal "Synth" /\
  option_map (fun s => Agent.conversation s !! 1) (synthesis r)
  = Some (Some (Agent.UserMessage
                  (JStr ("Synthesize 3 responses: "
                           +:+ "=== AGENT 1 RESPONSE ===" +:+ nl +:+ "R1"
                           +:+ nl +:+ nl
                           +:+ "=== AGENT 2 RESPONSE ===" +:+ nl +:+ "R2"
                           +:+ nl +:+ nl
                           +:+ "=== AGENT 3 RESPONSE ===" +:+ nl +:+ "R3"
                           +:+ nl +:+ nl)))).
Proof. by vm_compute. Qed.

(** C4, where the code departs from it.  A response holding doubled
    dollar signs reaches the synthesis agent with single ones: the
    prompt is not the template with the placeholder replaced by the
    labelled responses. *)
Theorem dollar_signs_are_rewritten :
  let o := Scenario.orchestrator_of 2 in
  let r :=
    orchestrate (H := JSONText.runtime) Scenario.dollar_world o "Main task" in
  let prompt :=
    "Synthesize 2 responses: "
      +:+ "=== AGENT 1 RESPONSE ===" +:+ nl +:+ "The area is $x^2$"
      +:+ nl +:+ nl
      +:+ "=== AGENT 2 RESPONSE ===" +:+ nl +:+ "R2" +:+ nl +:+ nl in
  successful_responses (results r) = ["The area is $$x^2$$"; "R2"] /\
  option_map (fun s => Agent.conversation s !! 1) (synthesis r)
  = Some (Some (Agent.UserMessage (JStr prompt))) /\
  specified_synthesis_prompt (synthesis_prompt (config o))
    (successful_responses (results r))
  = "Synthesize 2 responses: "
      +:+ "=== AGENT 1 RESPONSE ===" +:+ nl +:+ "The area is $$x^2$$"
      +:+ nl +:+ nl
      +:+ "=== AGENT 2 RESPONSE ===" +:+ nl +:+ "R2" +:+ nl +:+ nl /\
  prompt
  <> specified_synthesis_prompt (synthesis_prompt (config o))
       (successful_responses (results r)).
Proof.
  intros o r prompt. split; [by vm_compute|]. split; [by vm_compute|].
  split; [by vm_compute|]. vm_compute. discriminate.
Qed.

(** C1, where the code departs from it.  Five agents are configured and
    the planning call fails: the fixed questions are four, four
    sub-tasks are dispatched, the Agent Results are numbered 0 to 3, and
    agent 4 stays queued. *)
Theorem fallback_dispatches_four_of_five :
  let o := Scenario.orchestrator_of 5 in
  let r :=
    orchestrate (H := JSONText.runtime) Scenario.five_agents_world o
      "Main task" in
  numAgents o = 5 /\
  option_map (length (A := json)) (dispatched r) = Some 4 /\
  List.map agent_id (results r) = [0; 1; 2; 3] /\
  getProgressStatus (after r) !! 4 = Some "QUEUED" /\
  answer r = Normal "Synth".
Proof. intros o r. by vm_compute. Qed.

(** C5.  When the sub-tasks were dispatched and no Agent Result has the
    status success, [orchestrate] returns the fixed message that all
    agents failed; it does not throw and no synthesis agent is run. *)
Theorem all_failed_gives_fixed_message `{Runtime} (w : World)
    (o : TaskOrchestrator) (userInput : string) (subtasks : list json) :
  dispatched (orchestrate w o userInput) = Some subtasks ->
  Forall (fun r => status r <> "success") (results (orchestrate w o userInput)) ->
  answer (orchestrate w o userInput)
  = Normal "All agents failed to provide results. Please try again." /\
  synthesis (orchestrate w o userInput) = None.
Proof.
  intros (_ & _ & o' & _ & Hagg)%orchestrate_dispatched Hfailed.
  rewrite aggregateResults_eq in Hagg. unfold successful_responses in Hagg.
  unfold is_success in Hagg. rewrite filter_none in Hagg by done.
  by injection Hagg as -> ->.
Qed.

(** C5 with three agents whose model calls are all rejected. *)
Lemma all_failed_gives_fixed_message_witness :
  let r :=
    orchestrate (H := JSONText.runtime) Scenario.all_fail_world
      (Scenario.orchestrator_of 3) "Main task" in
  answer r = Normal "All agents failed to provide results. Please try again."
  /\ synthesis r = None.
Proof.
  intros r.
  apply (all_failed_gives_fixed_message (H := JSONText.runtime)
           Scenario.all_fail_world (Scenario.orchestrator_of 3) "Main task"
           (List.map JStr (slice0 (fallback_questions "Main task") 3))).
  - vm_compute. reflexivity.
  - vm_compute. repeat constructor; discriminate.
Defined.

(** C6.  When exactly one Agent Result has the status success,
    [orchestrate] returns the response of that result as it is, and no
    synthesis agent is run: no model is called for a synthesis. *)
Theorem single_success_returned_verbatim `{Runtime} (w : World)
    (o : TaskOrchestrator) (userInput : string) (r : AgentResult) :
  List.filter is_success (results (orchestrate w o userInput)) = [r] ->
  answer (orchestrate w o userInput) = Normal (response r) /\
  synthesis (orchestrate w o userInput) = None.
Proof.
  intros Hone.
  destruct (dispatched (orchestrate w o userInput)) as [subtasks|] eqn:Hd.
  - destruct (orchestrate_dispatched w o userInput subtasks Hd)
      as (_ & _ & o' & _ & Hagg).
    rewrite aggregateResults_eq in Hagg. unfold successful_responses in Hagg.
    rewrite Hone in Hagg. simpl in Hagg. by injection Hagg as -> ->.
  - destruct (orchestrate_not_dispatched w o userInput Hd) as [Hnone _].
    by rewrite Hnone in Hone.
Qed.

(** C6 with three agents of which the second alone succeeds. *)
Lemma single_success_returned_verbatim_witness :
  let r :=
    orchestrate (H := JSONText.runtime) Scenario.one_success_world
      (Scenario.orchestrator_of 3) "Main task" in
  answer r = Normal "Only response" /\ synthesis r = None.
Proof.
  intros r.
  apply (single_success_returned_verbatim (H := JSONText.runtime)
           Scenario.one_success_world (Scenario.orchestrator_of 3) "Main task"
           {| agent_id := 1; status := "success"; response := "Only response";
              execution_time := 100 |}).
  vm_compute. reflexivity.
Defined.

(** C10.  [runAgentParallel] always resolves, to an Agent Result with
    the status success or error: none of the promises that [orchestrate]
    waits for is rejected, and no Agent Result of [orchestrate] has the
    status timeout. *)
Theorem workers_never_reject `{Runtime} (w : World) (o : TaskOrchestrator) :
  (forall (i : nat) (subtask : json),
      exists r,
        fst (runAgentParallel w o i subtask) = Normal r /\
        agent_id r = i /\
        (status r = "success" \/ status r = "error")) /\
  (forall (i : nat) (subtasks : list json),
      Forall (fun settlement => is_throw settlement = false)
        (fst (run_agents w o i subtasks))) /\
  (forall userInput : string,
      Forall (fun r => (status r = "success" \/ status r = "error") /\
                       status r <> "timeout")
        (results (orchestrate w o userInput))).
Proof.
  split; [|split].
  - intros i subtask.
    destruct (runAgentParallel_result w o i subtask) as (Hres & _).
    eexists. split; [exact Hres|]. unfold worker_result.
    destruct (Agent.settled _); simpl; auto.
  - intros i subtasks.
    destruct (run_agents_settlements w subtasks o i) as [-> _].
    generalize i. induction subtasks as [|s ss IH]; intros k; simpl;
      constructor; [done|apply IH].
  - intros userInput.
    destruct (dispatched (orchestrate w o userInput)) as [subtasks|] eqn:Hd.
    + destruct (orchestrate_dispatched w o userInput subtasks Hd)
        as (_ & -> & _).
      eapply Forall_impl; [apply worker_statuses|].
      intros r [-> | ->]; split; auto; discriminate.
    + destruct (orchestrate_not_dispatched w o userInput Hd) as [-> _].
      constructor.
Qed.

(** C7.  When the run of the synthesis agent raises, [orchestrate] does
    not: it returns the successful responses, in the order of the sorted
    results, each under its numbered heading, joined by line feeds; so
    each response occurs in the text right after its heading. *)
Theorem synthesis_failure_falls_back `{Runtime} (w : World)
    (o : TaskOrchestrator) (userInput : string)
    (s : Agent.Run) (e : JSError) :
  synthesis (orchestrate w o userInput) = Some s ->
  Agent.settled s = Throw e ->
  let responses :=
    successful_responses (results (orchestrate w o userInput)) in
  answer (orchestrate w o userInput) = Normal (join nl (combined 0 responses))
  /\
  List.map agent_id (results (orchestrate w o userInput))
  = seq 0 (length (results (orchestrate w o userInput))) /\
  forall (k : nat) (resp : string),
    responses !! k = Some resp ->
    occurs_in (fallback_heading k +:+ nl +:+ resp +:+ nl)
      (join nl (combined 0 responses)).
Proof.
  intros Hsynth Hthrow responses.
  destruct (dispatched (orchestrate w o userInput)) as [subtasks|] eqn:Hd;
    [|destruct (orchestrate_not_dispatched w o userInput Hd) as [_ Hnone];
      by rewrite Hnone in Hsynth].
  split; [|split].
  - destruct (orchestrate_dispatched w o userInput subtasks Hd)
      as (_ & _ & o' & _ & Hagg).
    rewrite aggregateResults_eq in Hagg. fold responses in Hagg.
    rewrite Hsynth in Hagg.
    destruct responses as [|r1 [|r2 rest]]; [done|done|].
    unfold aggregateConsensus in Hagg. injection Hagg as -> Hs.
    subst s. by rewrite Hthrow.
  - rewrite (results_cover_dispatched w o userInput subtasks Hd). f_equal.
    destruct (orchestrate_dispatched w o userInput subtasks Hd) as (_ & -> & _).
    by rewrite mapi_length.
  - intros k resp Hk. by apply (fallback_text_occurrence responses 0 k).
Qed.

(** C7 with two successful agents and a synthesis call that is
    rejected. *)
Lemma synthesis_failure_falls_back_witness :
  let r :=
    orchestrate (H := JSONText.runtime) Scenario.synthesis_fails_world
      (Scenario.orchestrator_of 2) "Main task" in
  answer r
  = Normal (join nl (combined 0 (successful_responses (results r)))) /\
  List.map agent_id (results r) = seq 0 (length (results r)) /\
  forall (k : nat) (resp : string),
    successful_responses (results r) !! k = Some resp ->
    occurs_in (fallback_heading k +:+ nl +:+ resp +:+ nl)
      (join nl (combined 0 (successful_responses (results r)))).
Proof.
  intros r.
  apply (synthesis_failure_falls_back (H := JSONText.runtime)
           Scenario.synthesis_fails_world (Scenario.orchestrator_of 2)
           "Main task"
           (Agent.run (H := JSONText.runtime)
              (synthesisAgent Scenario.synthesis_fails_world
                 (Scenario.orchestrator_of 2))
              (JStr (synthesisPrompt (Scenario.orchestrator_of 2)
                       ["R1"; "R2"])))
           (Error "LLM call failed: Error: Synthesis failed")).
  - vm_compute. reflexivity.
  - vm_compute. reflexivity.
Defined.



End OrchestratorProperties.

(** * Further properties of the agent *)

Module AgentShape.
Import JS Agent Trace Shape AgentFacts.

Section WithRuntime.
Context `{Runtime}.
Variable a : OpenRouterAgent.

Lemma handleToolCall_answers (history : list Message) (toolCall : ToolCall) :
  answers toolCall (handleToolCall a history toolCall).
Proof.
  unfold answers, handleToolCall, bind.
  destruct (JSON_parse (function_arguments toolCall)) as [args|e]; [|eauto].
  destruct (toolMapping a !! function_name toolCall) as [tool|]; [|eauto].
  destruct (tool history args); eauto.
Qed.

Lemma handled_answers (toolCalls : list ToolCall) :
  forall history, Forall2 answers toolCalls (handled a history toolCalls).
Proof.
  induction toolCalls as [|c cs IH]; intros history; simpl; constructor.
  - apply handleToolCall_answers.
  - apply IH.
Qed.

Lemma dispatch_through_completion (toolCalls : list ToolCall) :
  forall messages,
    dispatch a toolCalls messages
    = (messages ++ handled a messages (through_completion toolCalls),
       existsb is_completion toolCalls).
Proof.
  induction toolCalls as [|c cs IH]; intros messages; simpl.
  - by rewrite app_nil_r.
  - fold (is_completion c). destruct (is_completion c); simpl; [done|].
    rewrite IH. by norm_app.
Qed.

Lemma rounds_reply (reply : AssistantReply) (ms rest : list Message) :
  Forall2 answers (through_completion (batch reply)) ms ->
  Rounds rest ->
  Rounds (reply_message reply :: ms ++ rest).
Proof. destruct reply. by constructor. Qed.

(** The loop adds rounds to the conversation, it sends the conversation
    as it grows, and it stays within its iterations. *)
Lemma loop_rounds (remaining : nat) :
  forall (m : list Message) (log : list string) (reqs0 : list (list Message)),
  exists extra reqs,
    conversation (loop a remaining m log reqs0) = m ++ extra /\
    Rounds extra /\
    requests (loop a remaining m log reqs0) = reqs0 ++ reqs /\
    length reqs <= remaining /\
    (0 < remaining -> 0 < length reqs) /\
    Forall (fun q => m `prefix_of` q /\ q `prefix_of` m ++ extra) reqs /\
    StronglySorted (fun q q' => q `prefix_of` q') reqs.
Proof.
  induction remaining as [|k IH]; intros m log reqs0.
  - exists [], []. simpl. rewrite !app_nil_r.
    repeat split; try done; try constructor.
  - rewrite loop_S. destruct (reply_to a m) as [reply|e] eqn:Hcall.
    + assert (Hgo : forall ms,
                Forall2 answers (through_completion (batch reply)) ms ->
                exists extra reqs,
                  conversation
                    (loop a k ((m ++ [reply_message reply]) ++ ms)
                       (capture log (content reply)) (reqs0 ++ [m]))
                  = m ++ extra /\
                  Rounds extra /\
                  requests
                    (loop a k ((m ++ [reply_message reply]) ++ ms)
                       (capture log (content reply)) (reqs0 ++ [m]))
                  = reqs0 ++ reqs /\
                  length reqs <= S k /\
                  (0 < S k -> 0 < length reqs) /\
                  Forall (fun q => m `prefix_of` q /\ q `prefix_of` m ++ extra)
                    reqs /\
                  StronglySorted (fun q q' => q `prefix_of` q') reqs).
      { intros ms Hms.
        destruct (IH ((m ++ [reply_message reply]) ++ ms)
                    (capture log (content reply)) (reqs0 ++ [m]))
          as (extra & reqs & Hconv & Hrounds & Hreq & Hlen & _ & Hpre & Hsorted).
        exists (reply_message reply :: ms ++ extra), (m :: reqs).
        assert (Hm : m `prefix_of` (m ++ [reply_message reply]) ++ ms)
          by (rewrite <- app_assoc; apply prefix_app_r; done).
        assert (Hall : Forall (fun q => m `prefix_of` q /\
                                  q `prefix_of`
                                    m ++ reply_message reply :: ms ++ extra)
                         reqs).
        { eapply Forall_impl; [exact Hpre|]. intros q [Hq1 Hq2]. split.
          - by etrans.
          - by replace (m ++ reply_message reply :: ms ++ extra)
              with (((m ++ [reply_message reply]) ++ ms) ++ extra)
              by by norm_app. }
        split; [rewrite Hconv; by norm_app|].
        split; [by apply rounds_reply|].
        split; [rewrite Hreq; by norm_app|].
        split; [simpl; lia|]. split; [simpl; lia|].
        split.
        - constructor; [|exact Hall]. split; [done|]. by apply prefix_app_r.
        - constructor; [exact Hsorted|].
          eapply Forall_impl; [exact Hall|]. by intros q [? _]. }
      destruct (tool_calls reply) as [toolCalls|] eqn:Htc.
      * rewrite dispatch_through_completion.
        assert (Hms : Forall2 answers (through_completion (batch reply))
                        (handled a (m ++ [reply_message reply])
                           (through_completion toolCalls))).
        { unfold batch. rewrite Htc. apply handled_answers. }
        destruct (existsb is_completion toolCalls); [|by apply Hgo].
        exists (reply_message reply
                  :: handled a (m ++ [reply_message reply])
                       (through_completion toolCalls) ++ []), [m].
        simpl.
        split; [rewrite app_nil_r; by norm_app|].
        split; [apply rounds_reply; [exact Hms|constructor]|].
        split; [done|]. split; [lia|]. split; [lia|].
        split; repeat constructor; try done. by apply prefix_app_r.
      * destruct (Hgo []) as (extra & reqs & Hgo').
        { unfold batch. rewrite Htc. constructor. }
        rewrite app_nil_r in Hgo'. eauto.
    + exists [], [m]. simpl. rewrite !app_nil_r.
      repeat split; try done; try lia; repeat constructor; done.
Qed.

(** What holds of the messages at the start, of every assistant message
    and of every message of [handleToolCall] holds of the whole
    conversation. *)
Lemma loop_Forall (P : Message -> Prop)
    (Hassistant : forall c toolCalls, P (AssistantMessage c toolCalls))
    (Htool : forall history toolCall, P (handleToolCall a history toolCall))
    (remaining : nat) :
  forall (m : list Message) (log : list string) (reqs : list (list Message)),
    Forall P m -> Forall P (conversation (loop a remaining m log reqs)).
Proof.
  assert (Hhandled : forall toolCalls history,
             Forall P (handled a history toolCalls)).
  { induction toolCalls as [|c cs IH]; intros history; simpl;
      constructor; auto. }
  induction remaining as [|k IH]; intros m log reqs Hm; [done|].
  rewrite loop_S. destruct (reply_to a m) as [reply|e]; [|done].
  assert (Hm' : Forall P (m ++ [reply_message reply])).
  { apply Forall_app. split; [done|]. constructor; [|done].
    apply Hassistant. }
  destruct (tool_calls reply) as [toolCalls|]; [|by apply IH].
  rewrite dispatch_through_completion.
  assert (Hall : Forall P ((m ++ [reply_message reply])
                             ++ handled a (m ++ [reply_message reply])
                                  (through_completion toolCalls))).
  { apply Forall_app. split; [done|]. apply Hhandled. }
  destruct (existsb is_completion toolCalls); [done|]. by apply IH.
Qed.

Lemma handleToolCall_accounted (history : list Message)
    (toolCall : ToolCall) :
  accounted a (handleToolCall a history toolCall).
Proof.
  unfold accounted, handleToolCall, bind.
  destruct (JSON_parse (function_arguments toolCall)) as [args|e];
    [|apply payload_failed].
  destruct (toolMapping a !! function_name toolCall) as [tool|] eqn:Hmap;
    [|by apply payload_unknown].
  destruct (tool history args) as [toolResult|e] eqn:Hrun.
  - by apply (payload_result a _ tool history args).
  - apply payload_failed.
Qed.

Lemma run_rounds (userInput : json) :
  exists extra reqs,
    conversation (run a userInput) = initial_messages a userInput ++ extra /\
    Rounds extra /\
    requests (run a userInput) = reqs /\
    length reqs <= agent_max_iterations (config a) /\
    (0 < agent_max_iterations (config a) -> 0 < length reqs) /\
    Forall (fun q => initial_messages a userInput `prefix_of` q /\
                     q `prefix_of` initial_messages a userInput ++ extra)
      reqs /\
    StronglySorted (fun q q' => q `prefix_of` q') reqs.
Proof. apply (loop_rounds _ _ [] []). Qed.

End WithRuntime.

(** X1.  A run never calls the model more often than [max_iterations],
    and it calls it at least once when that number is not zero. *)
Theorem model_calls_within_budget `{Runtime} (a : OpenRouterAgent)
    (userInput : json) :
  llm_calls (run a userInput) <= agent_max_iterations (config a) /\
  (0 < agent_max_iterations (config a) -> 1 <= llm_calls (run a userInput)).
Proof.
  destruct (run_rounds a userInput)
    as (extra & reqs & _ & _ & Hreq & Hle & Hpos & _).
  unfold llm_calls. rewrite Hreq. split; [exact Hle|]. intros Hmax.
  specialize (Hpos Hmax). lia.
Qed.

(** X2.  The conversation only grows: it begins with the system message
    and the user message, every request to the model is the conversation
    as it stood, from those two messages on, and each request is an
    initial part of the requests after it and of the conversation at the
    end. *)
Theorem conversation_only_grows `{Runtime} (a : OpenRouterAgent)
    (userInput : json) :
  [SystemMessage (system_prompt (config a)); UserMessage userInput]
    `prefix_of` conversation (run a userInput) /\
  Forall (fun q =>
            [SystemMessage (system_prompt (config a)); UserMessage userInput]
              `prefix_of` q /\
            q `prefix_of` conversation (run a userInput))
    (requests (run a userInput)) /\
  StronglySorted (fun q q' => q `prefix_of` q') (requests (run a userInput)).
Proof.
  destruct (run_rounds a userInput)
    as (extra & reqs & Hconv & _ & Hreq & _ & _ & Hall & Hsorted).
  rewrite Hconv, Hreq. split; [by apply prefix_app_r|]. by split.
Qed.




(** X5.  The content of every tool message of a conversation is the
    result of a tool mapped under the name of the message, or the error
    object for an unknown tool when no tool is mapped under that name,
    or the error object for a failed execution.  An agent whose mapping
    is empty gets error objects only. *)
Theorem tool_messages_are_accounted `{Runtime} (a : OpenRouterAgent)
    (userInput : json) :
  Forall (accounted a) (conversation (run a userInput)) /\
  (toolMapping a = ∅ ->
   Forall reports_error (conversation (run a userInput))).
Proof.
  split.
  - apply loop_Forall.
    + done.
    + apply handleToolCall_accounted.
    + by repeat constructor.
  - intros Hempty. apply loop_Forall.
    + done.
    + intros history toolCall.
      pose proof (handleToolCall_accounted a history toolCall) as Hacc.
      unfold handleToolCall, bind in *.
      destruct (JSON_parse (function_arguments toolCall)) as [args|e];
        [|by eexists].
      rewrite Hempty, lookup_empty. by eexists.
    + by repeat constructor.
Qed.

End AgentShape.

(** * Further properties of the orchestrator *)

Module OrchestratorLedger.
Import JS Orchestrator Trace Shape Outcome Ledger OrchestratorFacts.

Lemma queue_all_lookup (count : nat) :
  forall (progress : gmap nat string) (i j : nat),
    queue_all progress i count !! j
    = if Nat.leb i j && Nat.ltb j (i + count) then Some "QUEUED"
      else progress !! j.
Proof.
  induction count as [|n IH]; intros progress i j; simpl.
  - destruct (Nat.leb_spec i j), (Nat.ltb_spec j (i + 0)); simpl; try done. lia.
  - rewrite IH. destruct (decide (j = i)) as [->|Hne].
    + rewrite lookup_insert_eq.
      destruct (Nat.leb_spec (S i) i), (Nat.leb_spec i i),
        (Nat.ltb_spec i (i + S n)); simpl; try done; lia.
    + rewrite lookup_insert_ne by done.
      destruct (Nat.leb_spec (S i) j), (Nat.ltb_spec j (S i + n)),
        (Nat.leb_spec i j), (Nat.ltb_spec j (i + S n)); simpl; try done; lia.
Qed.

Lemma mapi_lookup {A B : Type} (f : nat -> A -> B) (xs : list A) :
  forall i k, mapi f i xs !! k = f (i + k) <$> xs !! k.
Proof.
  induction xs as [|x xs IH]; intros i k; [done|].
  destruct k as [|k]; simpl.
  - by rewrite Nat.add_0_r.
  - rewrite IH. by replace (S i + k) with (i + S k) by lia.
Qed.

(** The fold of the constructor: a name is in the mapping when a tool of
    the list has it. *)
Lemma tool_mapping_lookup (ts : list Agent.BaseTool) :
  forall (m0 : gmap string Agent.ToolFn) (n : string)
         (f : Agent.ToolFn),
    List.fold_left (fun m t => <[Agent.name t := Agent.execute t]> m) ts m0
      !! n = Some f ->
    (exists t, In t ts /\ Agent.name t = n /\ f = Agent.execute t) \/
    m0 !! n = Some f.
Proof.
  induction ts as [|t ts IH]; intros m0 n f; simpl; [by right|].
  intros [(t' & Hin & Hn & Hf)|Hm0]%IH.
  - left. exists t'. auto.
  - destruct (decide (Agent.name t = n)) as [<-|Hne].
    + rewrite lookup_insert_eq in Hm0. injection Hm0 as <-.
      left. exists t. auto.
    + rewrite lookup_insert_ne in Hm0 by done. by right.
Qed.

Lemma tool_mapping_is_Some (ts : list Agent.BaseTool) :
  forall (m0 : gmap string Agent.ToolFn) (n : string),
    is_Some (List.fold_left
               (fun m t => <[Agent.name t := Agent.execute t]> m) ts m0 !! n)
    <-> In n (List.map Agent.name ts) \/ is_Some (m0 !! n).
Proof.
  induction ts as [|t ts IH]; intros m0 n; simpl; [tauto|].
  rewrite IH, lookup_insert_is_Some.
  destruct (decide (Agent.name t = n)); tauto.
Qed.

Section WithWorld.
Context `{Runtime}.
Variable w : World.

Lemma runAgentParallel_maps (o : TaskOrchestrator) (i : nat)
    (subtask : json) :
  agentProgress (snd (runAgentParallel w o i subtask))
  = <[i := final_status w (config o) i subtask]> (agentProgress o) /\
  agentResults (snd (runAgentParallel w o i subtask))
  = match final_text w (config o) i subtask with
    | Some text => <[i := text]> (agentResults o)
    | None => agentResults o
    end /\
  config (snd (runAgentParallel w o i subtask)) = config o.
Proof.
  unfold runAgentParallel, final_status, final_text, worker_run. simpl.
  destruct (Agent.settled _); simpl; [|done].
  by rewrite insert_insert_eq.
Qed.

Lemma run_agents_maps (subtasks : list json) :
  forall (o : TaskOrchestrator) (i : nat),
    (forall j, j < i ->
       agentProgress (snd (run_agents w o i subtasks)) !! j
       = agentProgress o !! j /\
       agentResults (snd (run_agents w o i subtasks)) !! j
       = agentResults o !! j) /\
    (forall k,
       agentProgress (snd (run_agents w o i subtasks)) !! (i + k)
       = match subtasks !! k with
         | Some subtask => Some (final_status w (config o) (i + k) subtask)
         | None => agentProgress o !! (i + k)
         end /\
       agentResults (snd (run_agents w o i subtasks)) !! (i + k)
       = match subtasks !! k with
         | Some subtask =>
             match final_text w (config o) (i + k) subtask with
             | Some text => Some text
             | None => agentResults o !! (i + k)
             end
         | None => agentResults o !! (i + k)
         end).
Proof.
  induction subtasks as [|s ss IH]; intros o i; simpl; [done|].
  destruct (runAgentParallel_maps o i s) as (Hp & Hr & Hc).
  destruct (runAgentParallel w o i s) as [settlement o1]. simpl in *.
  destruct (IH o1 (S i)) as [Hbelow Hfrom].
  destruct (run_agents w o1 (S i) ss) as [settlements o2]. simpl in *.
  assert (Hresults : forall j, j <> i ->
            agentResults o1 !! j = agentResults o !! j).
  { intros j Hj. rewrite Hr. destruct (final_text _ _ _ _); [|done].
    by rewrite lookup_insert_ne. }
  split.
  - intros j Hj. destruct (Hbelow j ltac:(lia)) as [-> ->].
    rewrite Hp, lookup_insert_ne by lia. by rewrite Hresults by lia.
  - intros [|k]; simpl.
    + rewrite Nat.add_0_r. destruct (Hbelow i ltac:(lia)) as [-> ->].
      rewrite Hp, lookup_insert_eq, Hr.
      destruct (final_text _ _ _ _); [by rewrite lookup_insert_eq|done].
    + replace (i + S k) with (S (i + k)) by lia.
      destruct (Hfrom k) as [-> ->]. rewrite Hc.
      destruct (ss !! k) as [sub|].
      * split; [done|].
        destruct (final_text w (config o) (S (i + k)) sub); [done|].
        by rewrite Hresults by lia.
      * rewrite Hp, lookup_insert_ne by lia. by rewrite Hresults by lia.
Qed.

(** The orchestrator at the end of an orchestration that dispatched. *)
Lemma orchestrate_after (o : TaskOrchestrator) (userInput : string)
    (subtasks : list json) :
  dispatched (orchestrate w o userInput) = Some subtasks ->
  after (orchestrate w o userInput)
  = snd (run_agents w
           (with_maps (with_maps o ∅ ∅) (queue_all ∅ 0 (numAgents o)) ∅)
           0 subtasks).
Proof.
  unfold orchestrate.
  destruct (decomposeTask _ _ _ _) as [plan [questions|e]]; [|done].
  destruct questions as [| | | |xs|]; try done.
  simpl.
  destruct (run_agents w _ 0 xs) as [settlements o2] eqn:Hrun.
  destruct (aggregateResults w o2 _) as [finalResult synth]. simpl.
  intros [= <-]. by rewrite Hrun.
Qed.

Lemma aggregateConsensus_normal (o : TaskOrchestrator)
    (responses : list string) :
  exists text, fst (aggregateConsensus w o responses) = Normal text.
Proof.
  unfold aggregateConsensus.
  destruct responses as [|r1 [|r2 rest]]; simpl; eauto;
    destruct (Agent.settled _); simpl; eauto.
Qed.

Lemma aggregateResults_normal (o : TaskOrchestrator)
    (rs : list AgentResult) :
  exists text, fst (aggregateResults w o rs) = Normal text.
Proof.
  rewrite aggregateResults_eq.
  destruct (successful_responses rs) as [|r rest]; [by eexists|].
  apply aggregateConsensus_normal.
Qed.

Lemma aggregateConsensus_config (o o' : TaskOrchestrator)
    (responses : list string) :
  config o = config o' ->
  aggregateConsensus w o responses = aggregateConsensus w o' responses.
Proof.
  intros Hcfg.
  unfold aggregateConsensus, synthesisAgent, synthesisPrompt.
  by rewrite Hcfg.
Qed.

End WithWorld.

(** The progress map after the agents have run: what the runs left, and
    the initial status where there was no run. *)
Lemma progress_lookup `{Runtime} (w : World) (o : TaskOrchestrator)
    (userInput : string) (subtasks : list json) (i : nat) :
  dispatched (orchestrate w o userInput) = Some subtasks ->
  getProgressStatus (after (orchestrate w o userInput)) !! i
  = match subtasks !! i with
    | Some subtask => Some (final_status w (config o) i subtask)
    | None => queue_all ∅ 0 (numAgents o) !! i
    end.
Proof.
  intros Hd. rewrite (orchestrate_after w o userInput subtasks Hd).
  unfold getProgressStatus.
  destruct (run_agents_maps w subtasks
              (with_maps (with_maps o ∅ ∅) (queue_all ∅ 0 (numAgents o)) ∅) 0)
    as [_ Hfrom].
  destruct (Hfrom i) as [Hp _]. exact Hp.
Qed.

(** X6.  After an orchestration that dispatched its sub-tasks, the
    progress map says COMPLETED for each agent whose run returned,
    still PROCESSING... for each agent whose run raised, QUEUED for the
    configured agents that got no sub-task, and nothing else: whatever
    the map held before the call is gone, and no agent is ever marked
    failed. *)
Theorem progress_after_orchestration `{Runtime} (w : World)
    (o : TaskOrchestrator) (userInput : string) (subtasks : list json)
    (i : nat) :
  dispatched (orchestrate w o userInput) = Some subtasks ->
  getProgressStatus (after (orchestrate w o userInput)) !! i
  = match subtasks !! i with
    | Some subtask =>
        Some (if is_throw (Agent.settled (worker_run w (config o) i subtask))
              then "PROCESSING..." else "COMPLETED")
    | None => if Nat.ltb i (numAgents o) then Some "QUEUED" else None
    end.
Proof.
  intros Hd. rewrite (progress_lookup w o userInput subtasks i Hd).
  destruct (subtasks !! i) as [subtask|]; [done|].
  rewrite queue_all_lookup. simpl.
  by destruct (Nat.ltb i (numAgents o)).
Qed.

(** X6 with three agents of which the second alone succeeds, and with
    five agents on the four fixed questions. *)
Lemma progress_after_orchestration_witness :
  getProgressStatus
    (after (orchestrate (H := JSONText.runtime) Scenario.one_success_world
              (Scenario.orchestrator_of 3) "Main task")) !! 0
  = Some "PROCESSING..." /\
  getProgressStatus
    (after (orchestrate (H := JSONText.runtime) Scenario.one_success_world
              (Scenario.orchestrator_of 3) "Main task")) !! 1
  = Some "COMPLETED" /\
  getProgressStatus
    (after (orchestrate (H := JSONText.runtime) Scenario.five_agents_world
              (Scenario.orchestrator_of 5) "Main task")) !! 4
  = Some "QUEUED".
Proof.
  split; [|split].
  - rewrite (progress_after_orchestration (H := JSONText.runtime)
               Scenario.one_success_world (Scenario.orchestrator_of 3)
               "Main task"
               (List.map JStr (slice0 (fallback_questions "Main task") 3)) 0);
      vm_compute; reflexivity.
  - rewrite (progress_after_orchestration (H := JSONText.runtime)
               Scenario.one_success_world (Scenario.orchestrator_of 3)
               "Main task"
               (List.map JStr (slice0 (fallback_questions "Main task") 3)) 1);
      vm_compute; reflexivity.
  - rewrite (progress_after_orchestration (H := JSONText.runtime)
               Scenario.five_agents_world (Scenario.orchestrator_of 5)
               "Main task"
               (List.map JStr (slice0 (fallback_questions "Main task") 5)) 4);
      vm_compute; reflexivity.
Defined.

(** X7.  After an orchestration that dispatched its sub-tasks, the map
    of results holds the text returned by each agent whose run returned,
    under the index of the agent, and nothing for the others. *)
Theorem result_texts_after_orchestration `{Runtime} (w : World)
    (o : TaskOrchestrator) (userInput : string) (subtasks : list json)
    (i : nat) :
  dispatched (orchestrate w o userInput) = Some subtasks ->
  agentResults (after (orchestrate w o userInput)) !! i
  = match subtasks !! i with
    | Some subtask =>
        match Agent.settled (worker_run w (config o) i subtask) with
        | Normal text => Some text
        | Throw _ => None
        end
    | None => None
    end.
Proof.
  intros Hd. rewrite (orchestrate_after w o userInput subtasks Hd).
  destruct (run_agents_maps w subtasks
              (with_maps (with_maps o ∅ ∅) (queue_all ∅ 0 (numAgents o)) ∅) 0)
    as [_ Hfrom].
  destruct (Hfrom i) as [_ Hr]. simpl in Hr. rewrite Hr.
  destruct (subtasks !! i) as [subtask|]; [|done].
  unfold final_text. by destruct (Agent.settled _).
Qed.

(** X7 with three agents of which the second alone succeeds. *)
Lemma result_texts_after_orchestration_witness :
  agentResults
    (after (orchestrate (H := JSONText.runtime) Scenario.one_success_world
              (Scenario.orchestrator_of 3) "Main task")) !! 1
  = Some "Only response" /\
  agentResults
    (after (orchestrate (H := JSONText.runtime) Scenario.one_success_world
              (Scenario.orchestrator_of 3) "Main task")) !! 2
  = None.
Proof.
  split.
  - rewrite (result_texts_after_orchestration (H := JSONText.runtime)
               Scenario.one_success_world (Scenario.orchestrator_of 3)
               "Main task"
               (List.map JStr (slice0 (fallback_questions "Main task") 3)) 1);
      vm_compute; reflexivity.
  - rewrite (result_texts_after_orchestration (H := JSONText.runtime)
               Scenario.one_success_world (Scenario.orchestrator_of 3)
               "Main task"
               (List.map JStr (slice0 (fallback_questions "Main task") 3)) 2);
      vm_compute; reflexivity.
Defined.

(** X8.  The Agent Result at position [i] reports the run of agent [i]
    on the [i]-th sub-task: status success with the text the run
    returned and the time measured, or status error with the text Error
    followed by the error of the run, and the time 0. *)
Theorem agent_result_reports_the_run `{Runtime} (w : World)
    (o : TaskOrchestrator) (userInput : string) (subtasks : list json)
    (i : nat) (subtask : json) :
  dispatched (orchestrate w o userInput) = Some subtasks ->
  subtasks !! i = Some subtask ->
  results (orchestrate w o userInput) !! i
  = Some match Agent.settled (worker_run w (config o) i subtask) with
         | Normal text =>
             {| agent_id := i; status := "success"; response := text;
                execution_time := elapsed w i |}
         | Throw error =>
             {| agent_id := i; status := "error";
                response := "Error: " +:+ toString error;
                execution_time := 0 |}
         end.
Proof.
  intros (_ & -> & _)%orchestrate_dispatched Hi.
  by rewrite mapi_lookup, Hi.
Qed.

(** X8 on the failing first agent of three. *)
Lemma agent_result_reports_the_run_witness :
  results (orchestrate (H := JSONText.runtime) Scenario.one_success_world
             (Scenario.orchestrator_of 3) "Main task") !! 0
  = Some {| agent_id := 0; status := "error";
            response := "Error: Error: LLM call failed: Error: Agent error";
            execution_time := 0 |}.
Proof.
  rewrite (agent_result_reports_the_run (H := JSONText.runtime)
             Scenario.one_success_world (Scenario.orchestrator_of 3)
             "Main task"
             (List.map JStr (slice0 (fallback_questions "Main task") 3)) 0
             (JStr "Research comprehensive information about: Main task"));
    vm_compute; reflexivity.
Defined.

(** X9.  There is one Agent Result for each dispatched sub-task, and
    their indices are those of the sub-tasks, each once, in ascending
    order; the sub-tasks are as many as the agents configured, or they
    are the fixed questions, four at most. *)
Theorem results_match_dispatched `{Runtime} (w : World)
    (o : TaskOrchestrator) (userInput : string) (subtasks : list json) :
  dispatched (orchestrate w o userInput) = Some subtasks ->
  List.map agent_id (results (orchestrate w o userInput))
  = seq 0 (length subtasks) /\
  NoDup (List.map agent_id (results (orchestrate w o userInput))) /\
  (length subtasks = numAgents o \/
   subtasks
   = List.map JStr (slice0 (fallback_questions userInput) (numAgents o)) /\
   length subtasks = Nat.min (numAgents o) 4).
Proof.
  intros Hd. split; [|split].
  - exact (OrchestratorProperties.results_cover_dispatched w o userInput
             subtasks Hd).
  - exact (OrchestratorProperties.results_distinct w o userInput subtasks Hd).
  - exact (OrchestratorProperties.dispatched_count w o userInput subtasks Hd).
Qed.

(** X9 with three agents on the fixed questions. *)
Lemma results_match_dispatched_witness :
  let r :=
    orchestrate (H := JSONText.runtime) Scenario.three_world
      (Scenario.orchestrator_of 3) "Main task" in
  let subtasks := List.map JStr (slice0 (fallback_questions "Main task") 3) in
  List.map agent_id (results r) = seq 0 (length subtasks) /\
  NoDup (List.map agent_id (results r)) /\
  (length subtasks = 3 \/
   subtasks = List.map JStr (slice0 (fallback_questions "Main task") 3) /\
   length subtasks = Nat.min 3 4).
Proof.
  intros r subtasks.
  apply (results_match_dispatched (H := JSONText.runtime)
           Scenario.three_world (Scenario.orchestrator_of 3) "Main task"
           subtasks).
  vm_compute. reflexivity.
Defined.

(** X10.  [decomposeTask] never rejects.  When the planning run raises,
    when its text is not JSON, and when it is a JSON array of another
    length than the number of agents, the result is the list of the
    fixed questions cut to that number, which has four items at most;
    an array of the right length is returned as it was parsed. *)
Theorem decomposition_falls_back `{Runtime} (w : World)
    (o : TaskOrchestrator) (userInput : string) (numAgents : nat) :
  (exists questions,
     snd (decomposeTask w o userInput numAgents) = Normal questions) /\
  (forall e,
     Agent.settled (fst (decomposeTask w o userInput numAgents)) = Throw e ->
     snd (decomposeTask w o userInput numAgents)
     = Normal (JArr (List.map JStr
                       (slice0 (fallback_questions userInput) numAgents)))) /\
  (forall response e,
     Agent.settled (fst (decomposeTask w o userInput numAgents))
     = Normal response ->
     JSON_parse (trim response) = Throw e ->
     snd (decomposeTask w o userInput numAgents)
     = Normal (JArr (List.map JStr
                       (slice0 (fallback_questions userInput) numAgents)))) /\
  (forall response questions,
     Agent.settled (fst (decomposeTask w o userInput numAgents))
     = Normal response ->
     JSON_parse (trim response) = Normal (JArr questions) ->
     snd (decomposeTask w o userInput numAgents)
     = Normal (JArr (if Nat.eqb (length questions) numAgents then questions
                     else List.map JStr
                            (slice0 (fallback_questions userInput)
                               numAgents)))) /\
  length (slice0 (fallback_questions userInput) numAgents)
  = Nat.min numAgents 4.
Proof.
  split; [|split; [|split; [|split]]].
  - destruct (decomposeTask_cases w o userInput numAgents) as (q & Hq & _).
    eauto.
  - intros e. unfold decomposeTask. simpl. intros ->. done.
  - intros response e. unfold decomposeTask. simpl. intros -> . simpl.
    intros ->. done.
  - intros response questions. unfold decomposeTask. simpl. intros ->. simpl.
    intros ->. simpl. by destruct (Nat.eqb (length questions) numAgents).
  - unfold slice0. rewrite length_firstn. done.
Qed.

(** X11.  [orchestrate] rejects in one case only: the planning text
    parsed to a value that is not an array and still passed the count
    test, a string of as many code units as there are agents or an
    object with such a [length] member.  The error is then the
    TypeError of [subtasks.map], and no agent was run.  Once the
    sub-tasks are dispatched the answer is a text. *)
Theorem orchestrate_rejects_only_without_array `{Runtime} (w : World)
    (o : TaskOrchestrator) (userInput : string) :
  (forall subtasks,
     dispatched (orchestrate w o userInput) = Some subtasks ->
     exists text, answer (orchestrate w o userInput) = Normal text) /\
  (forall e,
     answer (orchestrate w o userInput) = Throw e ->
     e = TypeError "subtasks.map is not a function" /\
     dispatched (orchestrate w o userInput) = None /\
     results (orchestrate w o userInput) = [] /\
     exists response questions,
       Agent.settled (planning (orchestrate w o userInput)) = Normal response /\
       JSON_parse (trim response) = Normal questions /\
       match questions with
       | JStr s => utf16_length s = numAgents o
       | JObj members =>
           exists q, get_member "length" members = Some (JNum q) /\
                     Qeq_bool q (inject_Z (Z.of_nat (numAgents o))) = true
       | _ => False
       end).
Proof.
  split.
  - intros subtasks Hd.
    destruct (orchestrate_dispatched w o userInput subtasks Hd)
      as (_ & _ & o' & _ & Hagg).
    destruct (aggregateResults_normal w o'
                (results (orchestrate w o userInput))) as (text & Htext).
    rewrite <- Hagg in Htext. eauto.
  - intros e. unfold orchestrate, decomposeTask. simpl.
    unfold bind, try_catch.
    destruct (Agent.settled _) as [response|e0] eqn:Hrun; simpl.
    2:{ destruct (run_agents _ _ _ _) as [ss o1].
        destruct (aggregateResults_normal w o1
                    (sort_by_id (mapi (settled_result o1) 0 ss)))
          as (text & Htext).
        destruct (aggregateResults _ _ _). simpl in *. congruence. }
    assert (Hfallback :
      forall xs,
        answer
          (let '(agentResults, o1) :=
             run_agents w
               (with_maps (with_maps o ∅ ∅)
                  (queue_all (agentProgress (with_maps o ∅ ∅)) 0
                     (numAgents (with_maps o ∅ ∅)))
                  (agentResults (with_maps o ∅ ∅))) 0 xs in
           let '(finalResult, synthesis) :=
             aggregateResults w o1
               (sort_by_id (mapi (settled_result o1) 0 agentResults)) in
           {| answer := finalResult;
              planning :=
                Agent.run (questionAgent w (with_maps o ∅ ∅))
                  (JStr (generationPrompt (with_maps o ∅ ∅) userInput
                           (numAgents (with_maps o ∅ ∅))));
              dispatched := Some xs;
              results := sort_by_id (mapi (settled_result o1) 0 agentResults);
              synthesis := synthesis; after := o1 |}) <> Throw e).
    { intros xs. destruct (run_agents _ _ _ _) as [ss o1].
      destruct (aggregateResults_normal w o1
                  (sort_by_id (mapi (settled_result o1) 0 ss)))
        as (text & Htext).
      destruct (aggregateResults _ _ _). simpl in *. congruence. }
    destruct (JSON_parse (trim response)) as [questions|e0] eqn:Hparse; simpl.
    2:{ intros Habs. by apply Hfallback in Habs. }
    destruct questions as [| b | q | s | xs | members]; simpl;
      try (intros Habs; by apply Hfallback in Habs).
    + destruct (Nat.eqb (utf16_length s) (numAgents o)) eqn:Hlen; simpl.
      * intros [= <-]. repeat split; try done.
        exists response, (JStr s). repeat split; try done.
        by apply Nat.eqb_eq.
      * intros Habs. by apply Hfallback in Habs.
    + destruct (Nat.eqb (length xs) (numAgents o)); simpl;
        intros Habs; by apply Hfallback in Habs.
    + destruct (get_member "length" members) as [[| | q | | |]|] eqn:Hmem;
        simpl; try (intros Habs; by apply Hfallback in Habs).
      destruct (Qeq_bool q _) eqn:Hq; simpl.
      * intros [= <-]. repeat split; try done.
        exists response, (JObj members). repeat split; try done.
        exists q. by rewrite Hmem.
      * intros Habs. by apply Hfallback in Habs.
Qed.

(** X11 where the planning agent replies a JSON string of three
    characters to an orchestrator of three agents. *)
Lemma orchestrate_rejects_only_without_array_witness :
  let r :=
    orchestrate (H := JSONText.runtime) Scenario.string_reply_world
      (Scenario.orchestrator_of 3) "Main task" in
  answer r = Throw (TypeError "subtasks.map is not a function") /\
  dispatched r = None /\
  results r = [].
Proof.
  intros r.
  assert (Hanswer :
    answer r = Throw (TypeError "subtasks.map is not a function"))
    by (vm_compute; reflexivity).
  split; [exact Hanswer|].
  destruct (proj2 (orchestrate_rejects_only_without_array
                     (H := JSONText.runtime) Scenario.string_reply_world
                     (Scenario.orchestrator_of 3) "Main task")
              (TypeError "subtasks.map is not a function") Hanswer)
    as (_ & Hd & Hr & _).
  exact (conj Hd Hr).
Defined.

(** X12.  Aggregation reads the responses of the successful results
    and the configuration, and nothing else: not the failed results, not
    the identifiers or the times, and not the aggregation strategy. *)
Theorem aggregation_reads_successes_only `{Runtime} (w : World)
    (o o' : TaskOrchestrator) (rs rs' : list AgentResult) :
  config o = config o' ->
  successful_responses rs = successful_responses rs' ->
  aggregateResults w o rs = aggregateResults w o' rs'.
Proof.
  intros Hcfg Hrs. rewrite !aggregateResults_eq, Hrs.
  destruct (successful_responses rs') as [|r rest]; [done|].
  by apply aggregateConsensus_config.
Qed.

(** X12 with another strategy, a failed result more, and other
    identifiers and times. *)
Lemma aggregation_reads_successes_only_witness :
  aggregateResults (H := JSONText.runtime) Scenario.three_world
    (Scenario.orchestrator_of 3)
    [ {| agent_id := 0; status := "success"; response := "R1";
         execution_time := 100 |};
      {| agent_id := 1; status := "success"; response := "R2";
         execution_time := 100 |} ]
  = aggregateResults (H := JSONText.runtime) Scenario.three_world
      {| config := Scenario.test_config 3; numAgents := 7;
         taskTimeout := 1; aggregationStrategy := "voting"; silent := false;
         agentProgress := ∅; agentResults := ∅ |}
      [ {| agent_id := 5; status := "error"; response := "Error: no";
           execution_time := 0 |};
        {| agent_id := 2; status := "success"; response := "R1";
           execution_time := 7 |};
        {| agent_id := 9; status := "success"; response := "R2";
           execution_time := 8 |} ].
Proof.
  apply (aggregation_reads_successes_only (H := JSONText.runtime));
    vm_compute; reflexivity.
Defined.

(** X13.  An agent offers to the model the names under which it maps
    tools, and each mapped function is the [execute] of a discovered
    tool of that name.  The planning agent offers and maps the same
    tools but the completion tool; the synthesis agent offers and maps
    none. *)
Theorem offered_tools_are_mapped (w : World) (o : TaskOrchestrator)
    (env : Agent.Environment) (config : Config) (silent : bool)
    (n : string) :
  (In n (offered (Agent.new env config silent))
   <-> is_Some (Agent.toolMapping (Agent.new env config silent) !! n)) /\
  (forall f,
     Agent.toolMapping (Agent.new env config silent) !! n = Some f ->
     exists t, In t (Agent.discoverTools env) /\ Agent.name t = n /\
               f = Agent.execute t) /\
  (In n (offered (questionAgent w o))
   <-> is_Some (Agent.toolMapping (questionAgent w o) !! n)) /\
  (In n (offered (questionAgent w o))
   <-> n <> "mark_task_complete" /\
       In n (offered (Agent.new (environment w Planner)
                        (Orchestrator.config o) true))) /\
  (n <> "mark_task_complete" ->
   Agent.toolMapping (questionAgent w o) !! n
   = Agent.toolMapping
       (Agent.new (environment w Planner) (Orchestrator.config o) true)
     !! n) /\
  offered (synthesisAgent w o) = [] /\
  Agent.toolMapping (synthesisAgent w o) !! n = None.
Proof.
  assert (Hnew : forall env cfg s,
    In n (offered (Agent.new env cfg s))
    <-> is_Some (Agent.toolMapping (Agent.new env cfg s) !! n)).
  { intros env0 cfg s. unfold offered. simpl.
    rewrite tool_mapping_is_Some, List.map_map, lookup_empty.
    split; [by left|]. intros [Hin|[x Hx]]; [done|discriminate]. }
  assert (Hquestion :
    In n (offered (questionAgent w o))
    <-> n <> "mark_task_complete" /\
        In n (offered (Agent.new (environment w Planner)
                         (Orchestrator.config o) true))).
  { unfold offered, questionAgent. simpl. rewrite !in_map_iff. split.
    - intros (t & Hn & [Hin Hkeep]%filter_In). split; [|by exists t].
      intros ->. rewrite Hn, String.eqb_refl in Hkeep. discriminate.
    - intros (Hne & t & Hn & Hin). exists t. split; [done|].
      apply filter_In. split; [done|]. rewrite Hn.
      by apply negb_true_iff, String.eqb_neq. }
  split; [apply Hnew|]. split.
  { intros f [Hf|Hf]%tool_mapping_lookup; [done|].
    by rewrite lookup_empty in Hf. }
  split; [|split; [done|split; [|done]]].
  - rewrite Hquestion, Hnew. unfold questionAgent. simpl.
    rewrite lookup_delete_is_Some. split; intros [? ?]; split; auto.
  - intros Hne. unfold questionAgent. simpl.
    by rewrite lookup_delete_ne.
Qed.

(** X14.  With two successful responses or more that hold no dollar
    sign, the synthesis agent is asked once the system prompt and the
    template with the number of responses and the labelled responses in
    the place of the two placeholders; the text of its run is the
    answer, and when the run raises the answer is the fallback text. *)
Theorem synthesis_reads_labelled_responses `{Runtime} (w : World)
    (o : TaskOrchestrator) (userInput : string) (subtasks : list json) :
  dispatched (orchestrate w o userInput) = Some subtasks ->
  2 <= length (successful_responses (results (orchestrate w o userInput))) ->
  Forall (fun r => dollar_free r = true)
    (successful_responses (results (orchestrate w o userInput))) ->
  exists s : Agent.Run,
    synthesis (orchestrate w o userInput) = Some s /\
    [Agent.SystemMessage (system_prompt (config o));
     Agent.UserMessage
       (JStr (specified_synthesis_prompt (synthesis_prompt (config o))
                (successful_responses
                   (results (orchestrate w o userInput)))))]
      `prefix_of` Agent.conversation s /\
    Forall reports_error (Agent.conversation s) /\
    answer (orchestrate w o userInput)
    = match Agent.settled s with
      | Normal text => Normal text
      | Throw _ =>
          Normal (join nl
                    (combined 0
                       (successful_responses
                          (results (orchestrate w o userInput)))))
      end.
Proof.
  intros Hd Htwo Hfree.
  destruct (orchestrate_dispatched w o userInput subtasks Hd)
    as (_ & _ & o' & Hcfg & Hagg).
  rewrite aggregateResults_eq in Hagg.
  destruct (successful_responses (results (orchestrate w o userInput)))
    as [|r1 [|r2 rest]] eqn:Hrs; simpl in Htwo; try lia.
  unfold aggregateConsensus in Hagg. injection Hagg as Hanswer Hsynthesis.
  rewrite (synthesisPrompt_dollar_free o' _ Hfree), Hcfg in Hanswer, Hsynthesis.
  eexists. split; [exact Hsynthesis|].
  split; [|split].
  - destruct (AgentShape.run_rounds (synthesisAgent w o')
                (JStr (specified_synthesis_prompt (synthesis_prompt (config o))
                         (r1 :: r2 :: rest))))
      as (extra & reqs & -> & _).
    unfold Agent.initial_messages, synthesisAgent. simpl. rewrite Hcfg.
    by exists extra.
  - apply AgentShape.loop_Forall; [done| |by repeat constructor].
    intros history toolCall. unfold Agent.handleToolCall, bind.
    destruct (JSON_parse (Agent.function_arguments toolCall)) as [args|e];
      [|by eexists].
    unfold synthesisAgent. simpl. rewrite lookup_empty. by eexists.
  - rewrite Hanswer. unfold try_catch. by destruct (Agent.settled _).
Qed.

(** X14 with three agents that answer R1, R2 and R3. *)
Lemma synthesis_reads_labelled_responses_witness :
  let r :=
    orchestrate (H := JSONText.runtime) Scenario.three_world
      (Scenario.orchestrator_of 3) "Main task" in
  exists s : Agent.Run,
    synthesis r = Some s /\
    [Agent.SystemMessage "Test prompt";
     Agent.UserMessage
       (JStr (specified_synthesis_prompt
                "Synthesize {num_responses} responses: {agent_responses}"
                ["R1"; "R2"; "R3"]))]
      `prefix_of` Agent.conversation s /\
    Forall reports_error (Agent.conversation s) /\
    answer r
    = match Agent.settled s with
      | Normal text => Normal text
      | Throw _ => Normal (join nl (combined 0 ["R1"; "R2"; "R3"]))
      end.
Proof.
  intros r.
  apply (synthesis_reads_labelled_responses (H := JSONText.runtime)
           Scenario.three_world (Scenario.orchestrator_of 3) "Main task"
           (List.map JStr (slice0 (fallback_questions "Main task") 3))).
  - vm_compute. reflexivity.
  - vm_compute. lia.
  - vm_compute. repeat constructor.
Defined.

(** X15.  For a user input that holds no dollar sign, the planning
    agent is asked the system prompt and the question template in which
    the first user-input placeholder is replaced by the input and then
    the first agent-count placeholder by the number of agents. *)
Theorem planning_prompt_without_dollars `{Runtime} (w : World)
    (o : TaskOrchestrator) (userInput : string) (numAgents : nat) :
  dollar_free userInput = true ->
  generationPrompt o userInput numAgents
  = substitute
      (substitute (question_generation_prompt (config o)) "{user_input}"
         userInput)
      "{num_agents}" (Number_toString numAgents) /\
  [Agent.SystemMessage (system_prompt (config o));
   Agent.UserMessage
     (JStr (substitute
              (substitute (question_generation_prompt (config o))
                 "{user_input}" userInput)
              "{num_agents}" (Number_toString numAgents)))]
    `prefix_of` Agent.conversation (fst (decomposeTask w o userInput numAgents)).
Proof.
  intros Hfree.
  assert (Hprompt :
    generationPrompt o userInput numAgents
    = substitute
        (substitute (question_generation_prompt (config o)) "{user_input}"
           userInput)
        "{num_agents}" (Number_toString numAgents)).
  { unfold generationPrompt.
    rewrite (replace_dollar_free _ "{user_input}") by done.
    by rewrite (replace_dollar_free _ "{num_agents}")
      by apply dollar_free_digits. }
  split; [exact Hprompt|].
  unfold decomposeTask. simpl. rewrite Hprompt.
  destruct (AgentShape.run_rounds (questionAgent w o)
              (JStr (substitute
                       (substitute (question_generation_prompt (config o))
                          "{user_input}" userInput)
                       "{num_agents}" (Number_toString numAgents))))
    as (extra & reqs & -> & _).
  by exists extra.
Qed.

(** X15 on three agents and a plain task. *)
Lemma planning_prompt_without_dollars_witness :
  generationPrompt (Scenario.orchestrator_of 3) "Main task" 3
  = "Generate 3 questions for: Main task" /\
  [Agent.SystemMessage "Test prompt";
   Agent.UserMessage (JStr "Generate 3 questions for: Main task")]
    `prefix_of`
    Agent.conversation
      (fst (decomposeTask (H := JSONText.runtime) Scenario.three_world
              (Scenario.orchestrator_of 3) "Main task" 3)).
Proof.
  apply (planning_prompt_without_dollars (H := JSONText.runtime)
           Scenario.three_world (Scenario.orchestrator_of 3) "Main task" 3).
  vm_compute. reflexivity.
Defined.

Lemma run_calls_le `{Runtime} (a : Agent.OpenRouterAgent) (input : json) :
  Agent.llm_calls (Agent.run a input)
  <= agent_max_iterations (Agent.config a).
Proof.
  destruct (AgentShape.run_rounds a input)
    as (extra & reqs & _ & _ & Hreq & Hle & _).
  unfold Agent.llm_calls. by rewrite Hreq.
Qed.

Lemma worker_calls_le `{Runtime} (w : World) (config : Config)
    (subtasks : list json) :
  forall i,
    worker_calls w config i subtasks
    <= length subtasks * agent_max_iterations config.
Proof.
  induction subtasks as [|subtask rest IH]; intros i; simpl; [lia|].
  pose proof (run_calls_le (Agent.new (environment w (Worker i)) config true)
                subtask) as Hrun.
  specialize (IH (S i)). unfold worker_run. simpl in Hrun. lia.
Qed.

Lemma orchestrate_planning `{Runtime} (w : World) (o : TaskOrchestrator)
    (userInput : string) :
  planning (orchestrate w o userInput)
  = fst (decomposeTask w (with_maps o ∅ ∅) userInput (numAgents o)).
Proof.
  unfold orchestrate.
  destruct (decomposeTask w (with_maps o ∅ ∅) userInput
              (numAgents (with_maps o ∅ ∅))) as [plan decomposition] eqn:Hdec.
  change (numAgents (with_maps o ∅ ∅)) with (numAgents o) in Hdec.
  rewrite Hdec. simpl.
  destruct decomposition as [questions|e]; [|done].
  destruct questions; try done.
  destruct (run_agents _ _ _ _). by destruct (aggregateResults _ _ _).
Qed.

Lemma synthesis_calls_le `{Runtime} (w : World) (o : TaskOrchestrator)
    (userInput : string) (run : Agent.Run) :
  synthesis (orchestrate w o userInput) = Some run ->
  Agent.llm_calls run <= agent_max_iterations (config o).
Proof.
  intros Hs.
  destruct (dispatched (orchestrate w o userInput)) as [subtasks|] eqn:Hd.
  - destruct (orchestrate_dispatched w o userInput subtasks Hd)
      as (_ & _ & o' & Hcfg & Hagg).
    rewrite aggregateResults_eq in Hagg.
    destruct (successful_responses (results (orchestrate w o userInput)))
      as [|r1 [|r2 rest]];
      unfold aggregateConsensus in Hagg; injection Hagg as _ Hrun;
      rewrite Hs in Hrun; try discriminate.
    injection Hrun as ->. rewrite <- Hcfg.
    apply (run_calls_le (synthesisAgent w o')).
  - destruct (orchestrate_not_dispatched w o userInput Hd) as [_ Hnone].
    rewrite Hs in Hnone. discriminate.
Qed.

(** X16.  An orchestration calls the model a bounded number of times:
    the planning agent, each worker and the synthesis agent stay within
    [max_iterations], and there are no more workers than agents
    configured, so the calls are at most the number of agents plus two,
    times [max_iterations]. *)
Theorem orchestration_within_budget `{Runtime} (w : World)
    (o : TaskOrchestrator) (userInput : string) :
  model_calls w o (orchestrate w o userInput)
  <= (numAgents o + 2) * agent_max_iterations (config o).
Proof.
  unfold model_calls.
  assert (Hplan :
    Agent.llm_calls (planning (orchestrate w o userInput))
    <= agent_max_iterations (config o)).
  { rewrite orchestrate_planning. unfold decomposeTask. simpl.
    apply (run_calls_le (questionAgent w (with_maps o ∅ ∅))). }
  assert (Hsynth :
    match synthesis (orchestrate w o userInput) with
    | Some run => Agent.llm_calls run
    | None => 0
    end <= agent_max_iterations (config o)).
  { destruct (synthesis (orchestrate w o userInput)) as [run|] eqn:Hs;
      [|lia]. by apply (synthesis_calls_le w o userInput). }
  assert (Hworkers :
    match dispatched (orchestrate w o userInput) with
    | Some subtasks => worker_calls w (config o) 0 subtasks
    | None => 0
    end <= numAgents o * agent_max_iterations (config o)).
  { destruct (dispatched (orchestrate w o userInput)) as [subtasks|] eqn:Hd;
      [|lia].
    pose proof (worker_calls_le w (config o) subtasks 0) as Hcalls.
    assert (Hlen : length subtasks <= numAgents o).
    { destruct (OrchestratorProperties.dispatched_count w o userInput
                  subtasks Hd) as [->|[_ ->]]; lia. }
    nia. }
  lia.
Qed.

End OrchestratorLedger.

(** * Properties of the file reading tool *)

Module ReadFileFacts.
Import JS Agent ReadFileTool OrchestratorFacts.

Lemma split_lines_cons (s : string) :
  exists line lines, split_lines s = line :: lines.
Proof.
  destruct s as [|c rest]; simpl; [by eexists _, _|].
  destruct (Ascii.eqb c "010"); [by eexists _, _|].
  destruct (split_lines rest); by eexists _, _.
Qed.

Lemma join_char (c : ascii) (line : string) (lines : list string) :
  join nl (String c line :: lines) = String c (join nl (line :: lines)).
Proof. by destruct lines. Qed.

Lemma join_empty_line (lines : list string) :
  lines <> [] -> join nl ("" :: lines) = nl +:+ join nl lines.
Proof. by destruct lines. Qed.

(** Joining the lines of a text gives the text back. *)
Lemma join_split_lines (s : string) : join nl (split_lines s) = s.
Proof.
  induction s as [|c rest IH]; [done|]. simpl.
  destruct (Ascii.eqb c "010") eqn:Hc.
  - apply Ascii.eqb_eq in Hc as ->.
    destruct (split_lines_cons rest) as (line & lines & Hsplit).
    rewrite join_empty_line by (by rewrite Hsplit). by rewrite IH.
  - destruct (split_lines_cons rest) as (line & lines & Hsplit).
    rewrite Hsplit in *. by rewrite join_char, IH.
Qed.

Lemma initial_part_refl (s : string) : initial_part s s.
Proof. exists "". by rewrite append_empty_r. Qed.

Lemma initial_part_empty (s : string) : initial_part "" s.
Proof. by exists s. Qed.

Lemma initial_part_trans (p q s : string) :
  initial_part p q -> initial_part q s -> initial_part p s.
Proof.
  intros [r1 ->] [r2 ->]. exists (r1 +:+ r2). by rewrite append_assoc.
Qed.

Lemma initial_part_char (c : ascii) (p s : string) :
  initial_part p s -> initial_part (String c p) (String c s).
Proof. intros [r ->]. by exists r. Qed.

Lemma strip_initial_part (s : string) :
  initial_part (strip_final_newline s) s.
Proof.
  induction s as [|c rest IH]; simpl; [apply initial_part_refl|].
  destruct (Ascii.eqb c "010" && String.eqb rest ""); simpl.
  - apply initial_part_empty.
  - by apply initial_part_char.
Qed.

(** The first lines of a text, joined, are an initial part of it. *)
Lemma firstn_lines_initial (s : string) :
  forall n, initial_part (join nl (firstn n (split_lines s))) s.
Proof.
  induction s as [|c rest IH]; intros n.
  - destruct n as [|[|n]]; simpl; apply initial_part_refl.
  - destruct n as [|n]; [apply initial_part_empty|]. simpl.
    destruct (split_lines_cons rest) as (line & lines & Hsplit).
    destruct (Ascii.eqb c "010") eqn:Hc.
    + apply Ascii.eqb_eq in Hc as ->. simpl.
      destruct (firstn n (split_lines rest)) as [|x xs] eqn:Hfirst;
        [apply initial_part_empty|].
      change (initial_part (nl +:+ join nl (x :: xs)) (nl +:+ rest)).
      rewrite <- Hfirst. destruct (IH n) as [r Hr]. exists r.
      rewrite append_assoc. by rewrite <- Hr.
    + specialize (IH (S n)). rewrite Hsplit in *. simpl firstn in *.
      rewrite join_char. by apply initial_part_char.
Qed.

Lemma final_part_refl (s : string) : final_part s s.
Proof. by exists "". Qed.

Lemma final_part_empty (s : string) : final_part "" s.
Proof. exists s. by rewrite append_empty_r. Qed.

(** The last lines of a list, joined, are a final part of the whole
    joined. *)
Lemma skipn_lines_final (lines : list string) :
  forall k, final_part (join nl (skipn k lines)) (join nl lines).
Proof.
  induction lines as [|x xs IH]; intros k.
  - destruct k; apply final_part_refl.
  - destruct k as [|k]; [apply final_part_refl|]. simpl skipn.
    destruct (IH k) as [before Hbefore].
    destruct xs as [|y ys].
    + rewrite skipn_nil. apply final_part_empty.
    + exists (x +:+ nl +:+ before).
      change (x +:+ nl +:+ join nl (y :: ys)
              = (x +:+ nl +:+ before) +:+ join nl (skipn k (y :: ys))).
      rewrite Hbefore. by rewrite !append_assoc.
Qed.

Lemma append_is_empty (p s : string) : p +:+ s = "" -> s = "".
Proof. by destruct p. Qed.

Lemma strip_append (before s : string) :
  s <> "" ->
  strip_final_newline (before +:+ s) = before +:+ strip_final_newline s.
Proof.
  intros Hs. induction before as [|c rest IH]; [done|].
  change (String c rest +:+ s) with (String c (rest +:+ s)). simpl.
  destruct (String.eqb (rest +:+ s) "") eqn:Hempty.
  - apply String.eqb_eq, append_is_empty in Hempty. done.
  - rewrite andb_false_r. by rewrite IH.
Qed.

Lemma strip_final_part (p s : string) :
  final_part p s ->
  final_part (strip_final_newline p) (strip_final_newline s).
Proof.
  intros [before ->]. destruct p as [|c p'].
  - apply final_part_empty.
  - exists before. by apply strip_append.
Qed.

(** No line of a text holds a line feed. *)
Lemma split_lines_no_feed (s : string) :
  Forall (fun line => line_feeds line = 0) (split_lines s).
Proof.
  induction s as [|c rest IH]; simpl; [by repeat constructor|].
  destruct (Ascii.eqb c "010") eqn:Hc; [by constructor|].
  destruct (split_lines rest) as [|line lines].
  - repeat constructor. simpl. by rewrite Hc.
  - inversion IH as [|? ? Hline Hlines]; subst. constructor; [|done].
    simpl. by rewrite Hc.
Qed.

Lemma line_feeds_append (s t : string) :
  line_feeds (s +:+ t) = line_feeds s + line_feeds t.
Proof.
  induction s as [|c rest IH]; [done|].
  change (String c rest +:+ t) with (String c (rest +:+ t)). simpl.
  rewrite IH. lia.
Qed.

Lemma line_feeds_join (lines : list string) :
  Forall (fun line => line_feeds line = 0) lines ->
  line_feeds (join nl lines) = length lines - 1.
Proof.
  induction lines as [|x [|y ys] IH]; intros Hall; [done| |].
  - inversion Hall; subst. simpl. lia.
  - inversion Hall as [|? ? Hx Hrest]; subst.
    change (join nl (x :: y :: ys)) with (x +:+ nl +:+ join nl (y :: ys)).
    rewrite !line_feeds_append, Hx, (IH Hrest). simpl. lia.
Qed.

Lemma line_feeds_strip (s : string) :
  line_feeds (strip_final_newline s) <= line_feeds s.
Proof.
  induction s as [|c rest IH]; simpl; [lia|].
  destruct (Ascii.eqb c "010" && String.eqb rest ""); simpl; lia.
Qed.

Lemma slice_head {A : Type} (xs : list A) (head : Z) :
  slice xs 0 (Some head) = firstn (relative_index (length xs) head) xs.
Proof. unfold slice. simpl. by rewrite Nat.sub_0_r. Qed.

Lemma slice_tail {A : Type} (xs : list A) (start : Z) :
  slice xs start None = skipn (relative_index (length xs) start) xs.
Proof.
  unfold slice. apply firstn_all2. rewrite length_skipn. lia.
Qed.

Lemma split_lines_final_feed (body : string) :
  split_lines (body +:+ nl) = split_lines body ++ [""].
Proof.
  induction body as [|c rest IH]; [done|].
  change (String c rest +:+ nl) with (String c (rest +:+ nl)). simpl.
  rewrite IH. destruct (Ascii.eqb c "010"); [done|].
  by destruct (split_lines_cons rest) as (line & lines & ->).
Qed.

End ReadFileFacts.

Module ReadFileProperties.
Import JS Agent ReadFileTool ReadFileFacts.

(** X17.  The agent calls a mapped tool with the parsed arguments as its
    one argument.  The file reading tool so gets the whole arguments
    object as its path, and neither head nor tail: unless the file
    system takes that object for a path that exists, the tool message
    says File not found: [object Object], whatever path the arguments
    name and whatever files there are. *)
Theorem read_file_gets_the_arguments_as_path `{Runtime}
    (Number_text : Q -> string) (JSON_stringify : json -> string)
    (a : OpenRouterAgent) (fs_at : list Message -> FileSystem)
    (history : list Message) (toolCall : ToolCall)
    (members : list (string * json)) :
  toolMapping a !! "read_file"
  = Some (bound Number_text JSON_stringify fs_at) ->
  function_name toolCall = "read_file" ->
  JSON_parse (function_arguments toolCall) = Normal (JObj members) ->
  get_member "toString" members = None ->
  existsSync (fs_at history) (JObj members) = false ->
  handleToolCall a history toolCall
  = ToolMessage (id toolCall) "read_file"
      (stringify_error "File not found: [object Object]").
Proof.
  intros Hmap Hname Hparse HtoString Hexists.
  unfold handleToolCall, bind. rewrite Hparse, Hname, Hmap.
  unfold bound, execute. simpl. rewrite Hexists. simpl.
  by rewrite HtoString.
Qed.

(** X17 on a call that names an existing file and asks for its first
    line. *)
Lemma read_file_gets_the_arguments_as_path_witness :
  handleToolCall (H := JSONText.runtime)
    (Agent.new
       {| openai := Scenario.says "Reading";
          discoverTools :=
            [tool (fun _ => "0") (fun _ => "null")
               (fun _ => one_file "notes.txt" ("alpha" +:+ nl +:+ "beta"))] |}
       (Scenario.test_config 4) true)
    [] read_call
  = ToolMessage "call_7" "read_file"
      (stringify_error "File not found: [object Object]").
Proof.
  apply (read_file_gets_the_arguments_as_path (H := JSONText.runtime)
           (fun _ => "0") (fun _ => "null")
           (Agent.new
              {| openai := Scenario.says "Reading";
                 discoverTools :=
                   [tool (fun _ => "0") (fun _ => "null")
                      (fun _ =>
                         one_file "notes.txt" ("alpha" +:+ nl +:+ "beta"))] |}
              (Scenario.test_config 4) true)
           (fun _ => one_file "notes.txt" ("alpha" +:+ nl +:+ "beta"))
           [] read_call
           [("path", JStr "notes.txt"); ("head", JNum 1)]);
    vm_compute; reflexivity.
Defined.

(** X18.  Reading with [head]: the content returned is an initial part
    of the content of the file; for a count that is not negative it
    holds fewer line feeds than the count (none for the counts 0 and 1);
    for a count that reaches the number of lines it is the whole content
    without its final line feed. *)
Theorem head_gives_an_initial_part (Number_text : Q -> string)
    (fs : FileSystem) (path : json) (head : Z) (content : string) :
  existsSync fs path = true ->
  isFile fs path = Normal true ->
  readFileSync fs path = Normal content ->
  exists text : string,
    execute Number_text fs path (Some head) None = Contents path text /\
    initial_part text content /\
    ((0 <= head)%Z -> (Z.of_nat (line_feeds text) < Z.max head 1)%Z) /\
    ((Z.of_nat (length (split_lines content)) <= head)%Z ->
     text = strip_final_newline content).
Proof.
  intros Hexists Hfile Hread. unfold execute.
  rewrite Hexists, Hfile. simpl. rewrite Hread. simpl.
  eexists. split; [reflexivity|]. rewrite slice_head.
  split; [|split].
  - eapply initial_part_trans; [apply strip_initial_part|].
    apply firstn_lines_initial.
  - intros Hhead.
    pose proof (line_feeds_strip
                  (join nl (firstn (relative_index
                                      (length (split_lines content)) head)
                              (split_lines content)))) as Hstrip.
    rewrite line_feeds_join in Hstrip
      by apply Forall_take, split_lines_no_feed.
    rewrite length_firstn in Hstrip. unfold relative_index in *.
    destruct (head <? 0)%Z eqn:Hneg; lia.
  - intros Hall. unfold relative_index.
    destruct (head <? 0)%Z eqn:Hneg; [lia|].
    rewrite firstn_all2 by lia. by rewrite join_split_lines.
Qed.

(** X18 on a file of two lines. *)
Lemma head_gives_an_initial_part_witness :
  exists text : string,
    execute (fun _ => "0")
      (one_file "notes.txt" ("alpha" +:+ nl +:+ "beta" +:+ nl))
      (JStr "notes.txt") (Some 1%Z) None
    = Contents (JStr "notes.txt") text /\
    initial_part text ("alpha" +:+ nl +:+ "beta" +:+ nl) /\
    ((0 <= 1)%Z -> (Z.of_nat (line_feeds text) < Z.max 1 1)%Z) /\
    ((Z.of_nat (length (split_lines ("alpha" +:+ nl +:+ "beta" +:+ nl)))
      <= 1)%Z ->
     text = strip_final_newline ("alpha" +:+ nl +:+ "beta" +:+ nl)).
Proof.
  apply (head_gives_an_initial_part (fun _ => "0")
           (one_file "notes.txt" ("alpha" +:+ nl +:+ "beta" +:+ nl))
           (JStr "notes.txt") 1%Z ("alpha" +:+ nl +:+ "beta" +:+ nl));
    reflexivity.
Defined.

(** X19.  Reading with [tail]: the content returned is a final part of
    the content of the file without its final line feed; for a positive
    count it holds fewer line feeds than the count; for the count 0 it
    is the whole content, not an empty one; and the last line of a file
    that ends with a line feed is empty. *)
Theorem tail_gives_a_final_part (Number_text : Q -> string)
    (fs : FileSystem) (path : json) (tail : Z) (content : string) :
  existsSync fs path = true ->
  isFile fs path = Normal true ->
  readFileSync fs path = Normal content ->
  exists text : string,
    execute Number_text fs path None (Some tail) = Contents path text /\
    final_part text (strip_final_newline content) /\
    ((0 < tail)%Z -> (Z.of_nat (line_feeds text) < tail)%Z) /\
    (tail = 0%Z -> text = strip_final_newline content) /\
    (forall body : string,
       content = body +:+ nl -> tail = 1%Z -> text = "").
Proof.
  intros Hexists Hfile Hread. unfold execute.
  rewrite Hexists, Hfile. simpl. rewrite Hread. simpl.
  eexists. split; [reflexivity|]. rewrite slice_tail.
  split; [|split; [|split]].
  - apply strip_final_part.
    pose proof (skipn_lines_final (split_lines content)
                  (relative_index (length (split_lines content)) (- tail)))
      as Hfinal.
    by rewrite join_split_lines in Hfinal.
  - intros Htail.
    pose proof (line_feeds_strip
                  (join nl (skipn (relative_index
                                     (length (split_lines content)) (- tail))
                              (split_lines content)))) as Hstrip.
    rewrite line_feeds_join in Hstrip
      by apply Forall_drop, split_lines_no_feed.
    rewrite length_skipn in Hstrip. unfold relative_index in *.
    destruct (split_lines_cons content) as (line & lines & Hsplit).
    rewrite Hsplit in *. simpl length in *.
    destruct (- tail <? 0)%Z eqn:Hneg; lia.
  - intros ->. change (relative_index _ (- 0)) with 0.
    by rewrite drop_0, join_split_lines.
  - intros body -> ->. rewrite split_lines_final_feed, length_app. simpl.
    unfold relative_index. simpl.
    match goal with
    | |- context [drop ?k _] =>
        replace k with (length (split_lines body)) by lia
    end.
    by rewrite drop_app_length.
Qed.

(** X19 on a file of two lines that ends with a line feed. *)
Lemma tail_gives_a_final_part_witness :
  exists text : string,
    execute (fun _ => "0")
      (one_file "notes.txt" ("alpha" +:+ nl +:+ "beta" +:+ nl))
      (JStr "notes.txt") None (Some 1%Z)
    = Contents (JStr "notes.txt") text /\
    final_part text
      (strip_final_newline ("alpha" +:+ nl +:+ "beta" +:+ nl)) /\
    ((0 < 1)%Z -> (Z.of_nat (line_feeds text) < 1)%Z) /\
    (1%Z = 0%Z ->
     text = strip_final_newline ("alpha" +:+ nl +:+ "beta" +:+ nl)) /\
    (forall body : string,
       "alpha" +:+ nl +:+ "beta" +:+ nl = body +:+ nl -> 1%Z = 1%Z ->
       text = "").
Proof.
  apply (tail_gives_a_final_part (fun _ => "0")
           (one_file "notes.txt" ("alpha" +:+ nl +:+ "beta" +:+ nl))
           (JStr "notes.txt") 1%Z ("alpha" +:+ nl +:+ "beta" +:+ nl));
    reflexivity.
Defined.

End ReadFileProperties.

(** * Properties of the command line *)

Module CLIProperties.
Import JS Orchestrator Outcome OrchestratorFacts OrchestratorLedger CLI.

Lemma agent_rows_length (numAgents : nat) (progress : gmap nat string) :
  length (agent_rows numAgents progress) = numAgents.
Proof. unfold agent_rows. by rewrite length_map, length_seq. Qed.

(** X20.  The agent rows of the display, drawn from the progress map
    that an orchestration leaves: one row for each configured agent,
    with the bar of a completed agent where the run returned, the bar of
    an agent still processing where the run raised, and the bar of a
    queued agent where there was no sub-task.  The bar of a failed agent
    is not among them. *)
Theorem rows_after_orchestration `{Runtime} (w : World)
    (o : TaskOrchestrator) (userInput : string) (subtasks : list json) :
  dispatched (orchestrate w o userInput) = Some subtasks ->
  agent_rows (numAgents o)
    (getProgressStatus (after (orchestrate w o userInput)))
  = List.map
      (fun i =>
         "AGENT " +:+ padStart (Number_toString (i + 1)) 2 "0" +:+ "  "
         +:+ createProgressBar
               match subtasks !! i with
               | Some subtask =>
                   if is_throw
                        (Agent.settled (worker_run w (config o) i subtask))
                   then "PROCESSING..." else "COMPLETED"
               | None => "QUEUED"
               end)
      (seq 0 (numAgents o)) /\
  length (agent_rows (numAgents o)
            (getProgressStatus (after (orchestrate w o userInput))))
  = numAgents o.
Proof.
  intros Hd. split; [|apply agent_rows_length].
  unfold agent_rows. apply map_ext_in. intros i [_ Hi]%in_seq.
  unfold agent_row, status_of.
  rewrite (progress_lookup w o userInput subtasks i Hd).
  destruct (subtasks !! i) as [subtask|].
  - unfold Ledger.final_status. by destruct (is_throw _).
  - rewrite queue_all_lookup.
    replace (Nat.ltb i (0 + numAgents o)) with true
      by (symmetry; apply Nat.ltb_lt; lia).
    done.
Qed.

(** X20 with three agents of which the second alone succeeds. *)
Lemma rows_after_orchestration_witness :
  agent_rows 3
    (getProgressStatus
       (after (orchestrate (H := JSONText.runtime) Scenario.one_success_world
                 (Scenario.orchestrator_of 3) "Main task")))
  = [ "AGENT 01  " +:+ createProgressBar "PROCESSING...";
      "AGENT 02  " +:+ createProgressBar "COMPLETED";
      "AGENT 03  " +:+ createProgressBar "PROCESSING..." ] /\
  length
    (agent_rows 3
       (getProgressStatus
          (after (orchestrate (H := JSONText.runtime)
                    Scenario.one_success_world
                    (Scenario.orchestrator_of 3) "Main task"))))
  = 3.
Proof.
  destruct (rows_after_orchestration (H := JSONText.runtime)
              Scenario.one_success_world (Scenario.orchestrator_of 3)
              "Main task"
              (List.map JStr (slice0 (fallback_questions "Main task") 3)))
    as [Hrows Hlength]; [vm_compute; reflexivity|].
  split; [|exact Hlength].
  etrans; [exact Hrows|]. vm_compute. reflexivity.
Defined.

(** X21.  [runTask] never rejects.  It returns the answer of the
    orchestration, and [null] only when the orchestration rejected, in
    which case no sub-task was dispatched.  It leaves [running] false,
    and its last call of [updateDisplay] draws nothing: after the
    orchestration it prints the banner with the answer, or the line of
    the error, and no agent row. *)
Theorem run_task_ends_without_display `{Runtime} (w : World)
    (cli : OrchestratorCLI) (now : Z) (timeStr userInput : string) :
  running (snd (runTask w cli now timeStr userInput)) = false /\
  updateDisplay (snd (runTask w cli now timeStr userInput)) timeStr = [] /\
  (forall subtasks,
     dispatched (orchestrate w (orchestrator cli) userInput) = Some subtasks ->
     exists result,
       answer (orchestrate w (orchestrator cli) userInput) = Normal result /\
       fst (runTask w cli now timeStr userInput)
       = (Some result,
          [ Log (repeat_text "=" 80); Log "FINAL RESULTS";
            Log (repeat_text "=" 80); Log ""; Log result; Log "";
            Log (repeat_text "=" 80) ])) /\
  (fst (fst (runTask w cli now timeStr userInput)) = None ->
   dispatched (orchestrate w (orchestrator cli) userInput) = None /\
   results (orchestrate w (orchestrator cli) userInput) = [] /\
   exists error,
     answer (orchestrate w (orchestrator cli) userInput) = Throw error /\
     snd (fst (runTask w cli now timeStr userInput))
     = [ Log (nl +:+ "Error during orchestration: " +:+ toString error) ]).
Proof.
  assert (Hdispatched : forall subtasks,
    dispatched (orchestrate w (orchestrator cli) userInput) = Some subtasks ->
    exists result,
      answer (orchestrate w (orchestrator cli) userInput) = Normal result).
  { intros subtasks Hd.
    destruct (orchestrate_dispatched w (orchestrator cli) userInput subtasks Hd)
      as (_ & _ & o' & _ & Hagg).
    destruct (aggregateResults_normal w o'
                (results (orchestrate w (orchestrator cli) userInput)))
      as (text & Htext).
    rewrite <- Hagg in Htext. eauto. }
  unfold runTask.
  destruct (answer (orchestrate w (orchestrator cli) userInput))
    as [result|error] eqn:Hanswer; simpl.
  - repeat split; try done.
    intros subtasks Hd. exists result. split; [done|reflexivity].
  - repeat split; try done.
    + intros subtasks Hd. destruct (Hdispatched subtasks Hd); done.
    + destruct (dispatched (orchestrate w (orchestrator cli) userInput))
        as [subtasks|] eqn:Hd; [|done].
      destruct (Hdispatched subtasks eq_refl); done.
    + apply orchestrate_not_dispatched.
      destruct (dispatched (orchestrate w (orchestrator cli) userInput))
        as [subtasks|] eqn:Hd; [|done].
      destruct (Hdispatched subtasks eq_refl); done.
    + by exists error.
Qed.

End CLIProperties.
